(** * makovalab-psu/common: [pair_align.py] and [tests/run.py]

    A shallow embedding of the alignment wrapper (gap-score translation,
    substitution-matrix loader, [Aligner], [Alignment]) and of the test
    harness ([get_objects_diff], [add_dicts], [main]), with the properties
    the specification states about them. *)

From Stdlib Require Import ZArith String Ascii List Floats Lia.
From stdpp Require Import base option list strings gmap fin_maps.

Local Open Scope string_scope.

(** * Python values shared by both scripts *)

Module Py.

(** Exceptions the two scripts raise or let through.  The payload of
    [ValueError] tells the three places in [substitution_matrix_loader]
    that raise one apart. *)
Inductive value_error :=
| CountMismatch (line_num scores bases : nat)
    (* 'Line {line_num} has {len(scores)} scores but the header has {len(x_bases)} bases.' *)
| NotEnoughValues
    (* [y_base, *score_strs = line.split()] on an empty list *)
| BadFloat (s : string)
    (* [float(s)] on a string that is not a number *)
| WrongLineCount (n : nat).
    (* [a, b, c = str(alignment).splitlines()] on a list of length n <> 3 *)

Inductive exn :=
| RuntimeError (msg : string)
| ValueError (e : value_error)
| AttributeError (msg : string)
| OverflowError
| OSError (path : string)
| SystemExit (code : Z)
| Exception (msg : string)
| LibraryError (tag : string).
    (* an exception raised inside the external library, whatever its class *)

Inductive result (A : Type) :=
| Ok (a : A)
| Raise (e : exn).
Arguments Ok {A} a.
Arguments Raise {A} e.

Definition bind {A B} (k : A -> result B) (r : result A) : result B :=
  match r with
  | Ok a => k a
  | Raise e => Raise e
  end.

#[global] Instance result_bind : MBind result := @bind.
#[global] Instance result_ret : MRet result := @Ok.

(** The outcome of a call into the external library: its value, or the
    tag of what it raised. *)
Definition from_library {A} (r : A + string) : result A :=
  match r with
  | inl a => Ok a
  | inr tag => Raise (LibraryError tag)
  end.

(** [d[k] = v] *)
Definition assign `{Countable K} {V} (d : gmap K V) (kv : K * V) : gmap K V :=
  <[kv.1 := kv.2]> d.

(** [[f(x) for x in xs]]: the first element on which [f] raises ends the
    comprehension. *)
Fixpoint comprehension {A B} (f : A -> result B) (xs : list A) : result (list B) :=
  match xs with
  | [] => Ok []
  | x :: xs' =>
      y ← f x;
      ys ← comprehension f xs';
      Ok (y :: ys)
  end.

(** ** Strings

    A character is a code point below 256; [isspace] is [str.isspace] on
    that range. *)
Definition isspace (c : ascii) : bool :=
  let n := nat_of_ascii c in
  (((9 <=? n) && (n <=? 13)) || ((28 <=? n) && (n <=? 32))
   || (n =? 133) || (n =? 160))%nat.

Fixpoint lstrip (s : string) : string :=
  match s with
  | EmptyString => EmptyString
  | String c s' => if isspace c then lstrip s' else s
  end.

Fixpoint rstrip (s : string) : string :=
  match s with
  | EmptyString => EmptyString
  | String c s' =>
      match rstrip s' with
      | EmptyString => if isspace c then EmptyString else String c EmptyString
      | r => String c r
      end
  end.

(** [s.strip()] *)
Definition strip (s : string) : string := rstrip (lstrip s).

(** [s.startswith(p)] *)
Definition startswith (s p : string) : bool := String.prefix p s.

(** [s.split()]: maximal runs of characters that are not whitespace.
    [word] holds the run being read, last character first. *)
Fixpoint split_from (word : list ascii) (s : string) : list string :=
  match s with
  | EmptyString =>
      match word with
      | [] => []
      | _ => [string_of_list_ascii (rev word)]
      end
  | String c s' =>
      if isspace c then
        match word with
        | [] => split_from [] s'
        | _ => string_of_list_ascii (rev word) :: split_from [] s'
        end
      else split_from (c :: word) s'
  end.

Definition split (s : string) : list string := split_from [] s.

(** ** Numbers

    The penalties are Python numbers: an [int] (the default
    [DEFAULT_GAP_OPEN = 0]) or a [float] (the default
    [DEFAULT_GAP_EXTEND = 2.5], and whatever [argparse] converts with
    [type=float]).  Floats are IEEE 754 binary64, as in CPython. *)
Inductive number :=
| PyInt (z : Z)
| PyFloat (f : float).

(** [float(z)] for an [int]: round to nearest even, [OverflowError] when
    the result does not fit a double. *)
Definition nearest_float (z : Z) : float :=
  SF2Prim (binary_normalize prec emax z 0 false).

Definition float_of_int (z : Z) : result float :=
  let f := nearest_float z in
  if PrimFloat.is_infinity f then Raise OverflowError else Ok f.

(** [a + b] *)
Definition add (a b : number) : result number :=
  match a, b with
  | PyInt x, PyInt y => Ok (PyInt (x + y))
  | PyInt x, PyFloat g => f ← float_of_int x; Ok (PyFloat (PrimFloat.add f g))
  | PyFloat f, PyInt y => g ← float_of_int y; Ok (PyFloat (PrimFloat.add f g))
  | PyFloat f, PyFloat g => Ok (PyFloat (PrimFloat.add f g))
  end.

(** [-a] *)
Definition neg (a : number) : number :=
  match a with
  | PyInt x => PyInt (- x)
  | PyFloat f => PyFloat (PrimFloat.opp f)
  end.

(** [0 <= a] *)
Definition nonneg (a : number) : bool :=
  match a with
  | PyInt x => (0 <=? x)%Z
  | PyFloat f => PrimFloat.leb 0%float f
  end.

End Py.

(** * [pair_align.py] *)

Module PairAlign.
Import Py.

(** What a caller can pass as [matrix_file]: [None], a [str], or a
    [pathlib.Path] (the command line and [DEFAULT_MATRIX] give a path). *)
Inductive file_arg :=
| NoneArg
| StrArg (s : string)
| PathArg (p : string).

(** [bool(matrix_file)]: [None] and the empty [str] are falsy, a path
    object never is. *)
Definition truthy (f : file_arg) : bool :=
  match f with
  | NoneArg => false
  | StrArg s => negb (String.eqb s "")
  | PathArg _ => true
  end.

(** [enumerate(lines, start)] *)
Fixpoint enumerate {A} (start : nat) (lines : list A) : list (nat * A) :=
  match lines with
  | [] => []
  | l :: ls => (start, l) :: enumerate (S start) ls
  end.

(** The locals of [substitution_matrix_loader] that live across loop
    iterations. *)
Record loader_state := LoaderState {
  x_bases : option (list string);
  matrix : gmap (string * string) float
}.

(** [for x_base, score in zip(x_bases, scores): matrix[(x_base,y_base)] = score] *)
Definition store_row (y_base : string) (m : gmap (string * string) float)
    (cells : list (string * float)) : gmap (string * string) float :=
  foldl (fun m cell => <[(cell.1, y_base) := cell.2]> m) m cells.

Section Loader.

(** The builtin [float(s)] on a [str]; [None] is its [ValueError]. *)
Variable float_of_str : string -> option float.

(** The files that can be opened, as the lines iterating over each
    yields. *)
Variable fs : string -> option (list string).

Definition pyfloat (s : string) : result float :=
  match float_of_str s with
  | Some f => Ok f
  | None => Raise (ValueError (BadFloat s))
  end.

(** One iteration of the loop at lines 138-152. *)
Definition loader_step (st : loader_state) (line_num : nat) (line_raw : string)
    : result loader_state :=
  let line := strip line_raw in
  if startswith line "#" then Ok st
  else
    match x_bases st with
    | None => Ok (LoaderState (Some (split line)) (matrix st))
    | Some xb =>
        match split line with
        | [] => Raise (ValueError NotEnoughValues)
        | y_base :: score_strs =>
            scores ← comprehension pyfloat score_strs;
            if negb (length scores =? length xb)%nat then
              Raise (ValueError (CountMismatch line_num (length scores) (length xb)))
            else
              Ok (LoaderState (Some xb) (store_row y_base (matrix st) (zip xb scores)))
        end
    end.

Fixpoint loader_loop (st : loader_state) (lines : list (nat * string))
    : result loader_state :=
  match lines with
  | [] => Ok st
  | (line_num, line_raw) :: rest =>
      st' ← loader_step st line_num line_raw;
      loader_loop st' rest
  end.

(** The body of the [with] block, on the lines of the opened file. *)
Definition load_lines (lines : list string) : result (gmap (string * string) float) :=
  st ← loader_loop (LoaderState None ∅) (enumerate 1 lines);
  Ok (matrix st).

Definition substitution_matrix_loader (matrix_path : file_arg)
    : result (gmap (string * string) float) :=
  match matrix_path with
  | PathArg p =>
      match fs p with
      | Some lines => load_lines lines
      | None => Raise (OSError p)
      end
  | StrArg _ => Raise (AttributeError "'str' object has no attribute 'open'")
  | NoneArg => Raise (AttributeError "'NoneType' object has no attribute 'open'")
  end.

End Loader.

(** The exceptions that come out of the loader. *)
Definition from_loader (e : exn) : Prop :=
  match e with
  | ValueError _ | OSError _ | AttributeError _ => True
  | _ => False
  end.

(** ** The matrix file format, as the loader reads it

    The vocabulary the statements about the loader use: which lines are
    comments, which line is the header, which are data rows. *)

Definition is_comment (line_raw : string) : bool :=
  startswith (strip line_raw) "#".

Definition noncomment (lines : list (nat * string)) : list (nat * string) :=
  filter (fun item => is_comment item.2 = false) lines.

(** The column symbols: the tokens of the first line that is no comment. *)
Definition header (lines : list string) : option (list string) :=
  (fun item => split (strip item.2)) <$> head (noncomment (enumerate 1 lines)).

(** The data rows, each with its line number in the file. *)
Definition data_rows (lines : list string) : list (nat * string) :=
  tail (noncomment (enumerate 1 lines)).

Definition row_symbol (line_raw : string) : option string :=
  head (split (strip line_raw)).

Definition score_strs (line_raw : string) : list string :=
  tail (split (strip line_raw)).

Definition row_symbols (lines : list string) : list string :=
  omap (fun item => row_symbol item.2) (data_rows lines).

Section Format.

Variable float_of_str : string -> option float.

(** The row has a row symbol and every score on it is a number. *)
Definition tokens_ok (line_raw : string) : bool :=
  bool_decide (is_Some (row_symbol line_raw))
  && forallb (fun s => bool_decide (is_Some (float_of_str s))) (score_strs line_raw).

(** The row has one score per column. *)
Definition count_ok (xb : list string) (line_raw : string) : bool :=
  (length (score_strs line_raw) =? length xb)%nat.

(** Every data row has a row symbol and numbers for scores. *)
Definition all_tokens_ok (lines : list string) : bool :=
  forallb (fun item => tokens_ok item.2) (data_rows lines).

(** A header, and then rows of a row symbol and one number per column. *)
Definition well_formed (lines : list string) : bool :=
  match header lines with
  | None => false
  | Some xb =>
      forallb (fun item => tokens_ok item.2 && count_ok xb item.2) (data_rows lines)
  end.

(** What the loader makes of one data row: the row symbol and the scores,
    or the exception lines 145-150 raise. *)
Definition parse_row (xb : list string) (item : nat * string)
    : result (string * list float) :=
  match split (strip item.2) with
  | [] => Raise (ValueError NotEnoughValues)
  | y_base :: strs =>
      scores ← comprehension
                 (fun s => match float_of_str s with
                           | Some f => Ok f
                           | None => Raise (ValueError (BadFloat s))
                           end) strs;
      if negb (length scores =? length xb)%nat then
        Raise (ValueError (CountMismatch item.1 (length scores) (length xb)))
      else Ok (y_base, scores)
  end.

(** The matrix after the rows are stored one after the other. *)
Definition fill (xb : list string) (m : gmap (string * string) float)
    (rows : list (string * list float)) : gmap (string * string) float :=
  foldl (fun m row => store_row row.1 m (zip xb row.2)) m rows.

(** The assignments of lines 151-152 for a list of parsed rows, in order. *)
Definition entries (xb : list string) (rows : list (string * list float))
    : list ((string * string) * float) :=
  rows ≫= fun row => (fun cell => ((cell.1, row.1), cell.2)) <$> zip xb row.2.

(** Some data row has a number of scores other than the number of columns. *)
Definition has_mismatch (lines : list string) : bool :=
  match header lines with
  | None => false
  | Some xb => existsb (fun item => negb (count_ok xb item.2)) (data_rows lines)
  end.

End Format.

(** ** The aligner

    [Bio.Align] is external: its matrix objects, the alignments it
    returns and the two operations the wrapper calls on it are taken as
    they come. *)

(** The calls the constructor makes to load a matrix. *)
Inductive load_call :=
| CallShim (matrix_file : file_arg)
    (* [substitution_matrix_loader(matrix_file)] *)
| CallNative (matrix_file : file_arg).
    (* [substitution_matrices.read(matrix_file)] *)

Section Engine.

Variable float_of_str : string -> option float.
Variable fs : string -> option (list string).

(** What [substitution_matrices.read] returns. *)
Variable NativeMatrix : Type.

(** The module global [substitution_matrices]: [None] when the import at
    line 15 failed, else the library module, of which only [read] is used. *)
Variable substitution_matrices : option (file_arg -> NativeMatrix + string).

(** What can end up in [substitution_matrix]. *)
Inductive matrix_obj :=
| DictMatrix (m : gmap (string * string) float)
| ArrayMatrix (m : NativeMatrix).

(** The attributes of [PairwiseAligner] the constructor assigns; an
    assignment stores the value. *)
Record PairwiseAligner := {
  mode : string;
  open_gap_score : number;
  extend_gap_score : number;
  substitution_matrix : matrix_obj
}.

Record Aligner := { _aligner : PairwiseAligner }.

(** Lines 93-106, once [matrix] holds a matrix. *)
Definition configure (scope : string) (gap_open gap_extend : number)
    (m : matrix_obj) : result Aligner :=
  total ← add gap_open gap_extend;
  Ok {| _aligner := {| mode := scope;
                       open_gap_score := neg total;
                       extend_gap_score := neg gap_extend;
                       substitution_matrix := m |} |}.

(** [Aligner.__init__]: the loader calls it made, and the aligner or the
    exception. *)
Definition Aligner_init (scope : string) (gap_open gap_extend : number)
    (matrix_file : file_arg) (matrix : option matrix_obj)
    : list load_call * result Aligner :=
  match matrix with
  | Some m => ([], configure scope gap_open gap_extend m)
  | None =>
      if negb (truthy matrix_file) then
        ([], Raise (RuntimeError
                      "Must give either a `matrix` or `matrix_file` to Aligner"))
      else
        match substitution_matrices with
        | None =>
            ([CallShim matrix_file],
             m ← substitution_matrix_loader float_of_str fs matrix_file;
             configure scope gap_open gap_extend (DictMatrix m))
        | Some read =>
            ([CallNative matrix_file],
             m ← from_library (read matrix_file);
             configure scope gap_open gap_extend (ArrayMatrix m))
        end
  end.

(** An alignment as the engine returns it: [str(alignment).splitlines()]
    and [alignment.score]. *)
Record EngineAlignment := {
  printed_lines : list string;
  engine_score : float
}.

(** [PairwiseAligner.align]. *)
Variable engine_align :
  PairwiseAligner -> string -> string -> list EngineAlignment + string.

Record Alignment := {
  target : string;
  matches_str : string;
  query : string;
  score : float
}.

(** [Alignment.__init__] *)
Definition Alignment_init (alignment : EngineAlignment) : result Alignment :=
  match printed_lines alignment with
  | [t; m; q] =>
      Ok {| target := t; matches_str := m; query := q;
            score := engine_score alignment |}
  | l => Raise (ValueError (WrongLineCount (length l)))
  end.

(** [Alignment.__str__] *)
Definition Alignment_str (a : Alignment) : string :=
  target a ++ "
" ++ matches_str a ++ "
" ++ query a.

(** [Aligner.align]; [None] is Python's [None]. *)
Definition Aligner_align (self : Aligner) (seq1 seq2 : string)
    : result (option Alignment) :=
  alignments ← from_library (engine_align (_aligner self) seq1 seq2);
  if (0 <? length alignments)%nat then
    match alignments with
    | first :: _ => a ← Alignment_init first; Ok (Some a)
    | [] => Raise (Exception "IndexError") (* [alignments[0]], never out of range here *)
    end
  else Ok None.

(** The generator [(Alignment(aln) for aln in alignments)], as the list
    of what each [next] gives: a wrapper, or the exception of
    [Alignment.__init__], after which the generator is finished and
    gives nothing more. *)
Fixpoint wrap_each (alignments : list EngineAlignment) : list (result Alignment) :=
  match alignments with
  | [] => []
  | aln :: rest =>
      match Alignment_init aln with
      | Ok a => Ok a :: wrap_each rest
      | Raise e => [Raise e]
      end
  end.

(** [Aligner.aligns] *)
Definition Aligner_aligns (self : Aligner) (seq1 seq2 : string)
    : result (list (result Alignment)) :=
  alignments ← from_library (engine_align (_aligner self) seq1 seq2);
  Ok (wrap_each alignments).

(** The module-level [align]. *)
Definition align (seq1 seq2 scope : string) (gap_open gap_extend : number)
    (matrix_file : file_arg) (matrix : option matrix_obj)
    : result (option Alignment) :=
  aligner ← (Aligner_init scope gap_open gap_extend matrix_file matrix).2;
  Aligner_align aligner seq1 seq2.

End Engine.

(** ** Sample inputs *)

(** [float(s)] on plain decimal integer literals, the only numbers the
    sample files below hold; every other string is rejected. *)
Fixpoint digits (acc : Z) (s : string) : option Z :=
  match s with
  | EmptyString => Some acc
  | String c s' =>
      let n := nat_of_ascii c in
      if ((48 <=? n) && (n <=? 57))%nat
      then digits (10 * acc + Z.of_nat (n - 48)) s'
      else None
  end.

Definition sample_float (s : string) : option float :=
  match s with
  | EmptyString => None
  | String "-" EmptyString => None
  | String "-" s' => (fun z => PrimFloat.opp (nearest_float z)) <$> digits 0 s'
  | _ => nearest_float <$> digits 0 s
  end.

Definition newline : string := String "010"%char EmptyString.

(** A matrix file for DNA: match 1, mismatch -1. *)
Definition dna_matrix_lines : list string :=
  map (fun l => l ++ newline)
    ["# Substitution matrix for DNA";
     "   A  C  G  T";
     "A  1 -1 -1 -1";
     "C -1  1 -1 -1";
     "# purines above, pyrimidines below";
     "G -1 -1  1 -1";
     "T -1 -1 -1  1"].

Definition sample_fs (p : string) : option (list string) :=
  if String.eqb p "sub-matrix.txt" then Some dna_matrix_lines
  else if String.eqb p "repeated.txt" then Some ["A A"; "A 1 2"]
  else if String.eqb p "not-a-number.txt" then Some ["A"; "x foo"]
  else if String.eqb p "late-mismatch.txt" then Some ["A"; "x foo"; "y 1 2"]
  else if String.eqb p "short-row.txt" then Some ["A C"; "A 1 2"; "C 3"]
  else None.

(** [Aligner()] with its defaults, on a system without the native loader. *)
Definition default_init : list load_call * result (Aligner unit) :=
  Aligner_init sample_float sample_fs unit None
    "local" (PyInt 0) (PyFloat 2.5) (PathArg "sub-matrix.txt") None.

Definition default_aligner : Aligner unit :=
  match default_init.2 with
  | Ok a => a
  | Raise _ =>
      {| _aligner := {| mode := ""; open_gap_score := PyInt 0;
                        extend_gap_score := PyInt 0;
                        substitution_matrix := DictMatrix unit ∅ |} |}
  end.

(** An engine that finds nothing to align. *)
Definition no_alignments (engine : PairwiseAligner unit) (seq1 seq2 : string)
    : list EngineAlignment + string :=
  inl [].

End PairAlign.

(** * [tests/run.py] *)

Module Run.
Import Py.

(** The types of the objects a module's globals hold. *)
Inductive pytype :=
| FunctionType
| ModuleType
| DictType
| StrType
| PathType
| ObjectType.

#[global] Instance pytype_eq_dec : EqDecision pytype.
Proof. solve_decision. Defined.

(** The dicts the three lambdas of [main] close over. *)
Inductive group := SimpleTests | ActiveTests | InactiveTests.

(** Objects: a function defined with [def] at module level, one of the
    lambdas [main] creates ([lambda name: run_test_group(g)]), or any
    other instance of a type. *)
Inductive pyobj :=
| Function (name : string)
| Lambda (g : group)
| Instance (ty : pytype) (repr : string).

Definition type_of (obj : pyobj) : pytype :=
  match obj with
  | Function _ => FunctionType
  | Lambda _ => FunctionType
  | Instance ty _ => ty
  end.

(** [isinstance(obj, ty)]; none of the types above derives from another,
    except that all derive from [object]. *)
Definition isinstance (obj : pyobj) (ty : pytype) : bool :=
  bool_decide (ty = ObjectType) || bool_decide (type_of obj = ty).

(** [name in d] *)
Definition contains {V} (d : gmap string V) (name : string) : bool :=
  bool_decide (is_Some (d !! name)).

(** Lines 255-260.  A dict is a finite map; [items()] is taken in the
    map's own order, which no result below depends on. *)
Definition get_objects_diff (objects_before objects_after : gmap string pyobj)
    (object_type : pytype) : gmap string pyobj :=
  foldl (fun diff item =>
           if negb (contains objects_before item.1) && isinstance item.2 object_type
           then <[item.1 := item.2]> diff
           else diff)
        ∅ (map_to_list objects_after).

(** Lines 242-247. *)
Definition add_dicts (dicts : list (gmap string pyobj)) : gmap string pyobj :=
  foldl (fun combined d =>
           foldl (fun combined item => <[item.1 := item.2]> combined)
                 combined (map_to_list d))
        ∅ dicts.

(** What running the harness leaves behind: text printed, critical log
    records, and calls of test functions. *)
Inductive event :=
| Print (text : string)
| LogCritical (message : string)
| Invoke (test_fxn : pyobj) (test_name : string).

(** Code with effects: the events so far go in, the events so far and a
    value or an exception come out. *)
Definition M (A : Type) : Type := list event -> list event * result A.

#[global] Instance M_ret : MRet M := fun A a log => (log, Ok a).
#[global] Instance M_bind : MBind M := fun A B k m log =>
  match m log with
  | (log', Ok a) => k a log'
  | (log', Raise e) => (log', Raise e)
  end.

Definition emit (e : event) : M unit := fun log => ((log ++ [e])%list, Ok tt).
Definition raise {A} (e : exn) : M A := fun log => (log, Raise e).

(** [for x in xs: body(x)] *)
Fixpoint for_each {A} (xs : list A) (body : A -> M unit) : M unit :=
  match xs with
  | [] => mret tt
  | x :: xs' => body x ≫= fun _ => for_each xs' body
  end.

Definition dquote : string := String "034"%char EmptyString.

Section Harness.

(** [__name__ == '__main__'] *)
Variable run_as_script : bool.

(** Whether a test function, called with a name, raises. *)
Variable test_raises : pyobj -> string -> option exn.

(** The four snapshots of [globals()] at lines 74, 79, 231 and 236. *)
Variables GlobalsInitial GlobalsAfterMeta GlobalsAfterActive GlobalsAfterInactive
  : gmap string pyobj.

(** Lines 334-339. *)
Definition fail {A} (message : string) : M A :=
  emit (LogCritical message) ≫= fun _ =>
  if run_as_script then raise (SystemExit 1)
  else raise (Exception "Unrecoverable error").

(** Calling a function defined at module level. *)
Definition call_function (test_fxn : pyobj) (test_name : string) : M unit :=
  emit (Invoke test_fxn test_name) ≫= fun _ =>
  match test_raises test_fxn test_name with
  | Some e => raise e
  | None => mret tt
  end.

(** Lines 250-252.  The groups are diffs of module globals, so their
    members are module-level functions. *)
Definition run_test_group (test_group : gmap string pyobj) : M unit :=
  for_each (map_to_list test_group) (fun item => call_function item.2 item.1).

(** Lines 40-49: the dicts holding all defined tests. *)
Definition active_tests : gmap string pyobj :=
  get_objects_diff GlobalsAfterMeta GlobalsAfterActive FunctionType.

Definition inactive_tests : gmap string pyobj :=
  get_objects_diff GlobalsAfterActive GlobalsAfterInactive FunctionType.

Definition simple_tests : gmap string pyobj :=
  add_dicts [active_tests; inactive_tests].

Definition meta_tests : gmap string pyobj :=
  <["inactive" := Lambda InactiveTests]>
    (<["active" := Lambda ActiveTests]>
       (<["all" := Lambda SimpleTests]>
          (get_objects_diff GlobalsInitial GlobalsAfterMeta FunctionType))).

Definition all_tests : gmap string pyobj :=
  add_dicts [meta_tests; simple_tests].

(** [test_fxn(test_name)] for a value of [all_tests]. *)
Definition call (test_fxn : pyobj) (test_name : string) : M unit :=
  match test_fxn with
  | Lambda SimpleTests => run_test_group simple_tests
  | Lambda ActiveTests => run_test_group active_tests
  | Lambda InactiveTests => run_test_group inactive_tests
  | _ => call_function test_fxn test_name
  end.

Definition print_names (d : gmap string pyobj) : M unit :=
  for_each (map_to_list d) (fun item => emit (Print ("  " ++ item.1))).

(** [main], from line 51 on, with [tests] for [args.tests]; the value is
    what [main] returns, [None] for falling off its end. *)
Definition main (tests : list string) : M (option Z) :=
  if bool_decide (tests = []) then
    emit (Print "Meta tests:") ≫= fun _ =>
    print_names meta_tests ≫= fun _ =>
    emit (Print "Active tests:") ≫= fun _ =>
    print_names active_tests ≫= fun _ =>
    emit (Print "Inactive tests:") ≫= fun _ =>
    print_names inactive_tests ≫= fun _ =>
    mret (Some 1%Z)
  else
    let unknown_tests := filter (fun test_name => contains all_tests test_name = false) tests in
    (if bool_decide (unknown_tests = []) then mret tt
     else fail ("Error: Test(s) " ++ dquote
                ++ String.concat (dquote ++ ", " ++ dquote) unknown_tests
                ++ dquote ++ " unrecognized.")) ≫= fun _ =>
    for_each tests (fun test_name =>
      match all_tests !! test_name with
      | Some test_fxn => call test_fxn test_name
      | None => raise (Exception "KeyError")
      end) ≫= fun _ =>
    mret None.

End Harness.

(** The snapshots of the module as it stands (the interpreter's own
    double-underscore entries, none of them a function, left out). *)
Definition module_GlobalsInitial : gmap string pyobj :=
  list_to_map
    [("argparse", Instance ModuleType "argparse");
     ("difflib", Instance ModuleType "difflib");
     ("logging", Instance ModuleType "logging");
     ("os", Instance ModuleType "os");
     ("pathlib", Instance ModuleType "pathlib");
     ("subprocess", Instance ModuleType "subprocess");
     ("sys", Instance ModuleType "sys");
     ("types", Instance ModuleType "types");
     ("TESTS_DIR", Instance PathType "TESTS_DIR");
     ("ROOT_DIR", Instance PathType "ROOT_DIR");
     ("DESCRIPTION", Instance StrType "");
     ("make_argparser", Function "make_argparser");
     ("main", Function "main")].

Definition module_GlobalsAfterMeta : gmap string pyobj :=
  <["GlobalsInitial" := Instance DictType "GlobalsInitial"]> module_GlobalsInitial.

Definition module_GlobalsAfterActive : gmap string pyobj :=
  <["trimmer" := Function "trimmer"]>
    (<["get_context" := Function "get_context"]>
       (<["parse_test_align" := Function "parse_test_align"]>
          (<["getreads_smoke" := Function "getreads_smoke"]>
             (<["GlobalsAfterMeta" := Instance DictType "GlobalsAfterMeta"]>
                module_GlobalsAfterMeta)))).

Definition module_GlobalsAfterInactive : gmap string pyobj :=
  <["GlobalsAfterActive" := Instance DictType "GlobalsAfterActive"]>
    module_GlobalsAfterActive.

End Run.

(** * More of the two scripts *)

(** ** Text *)

Module PyText.
Import Py.

(** Every character is whitespace: [not s.strip()]. *)
Definition blank (s : string) : bool :=
  forallb isspace (list_ascii_of_string s).

(** No character is whitespace. *)
Definition spaceless (s : string) : bool :=
  forallb (fun c => negb (isspace c)) (list_ascii_of_string s).

(** The characters [str.splitlines] breaks lines at, among the code
    points below 256: LF, VT, FF, CR, FS, GS, RS and NEL. *)
Definition linebreak (c : ascii) : bool :=
  let n := nat_of_ascii c in
  (((10 <=? n) && (n <=? 13)) || ((28 <=? n) && (n <=? 30)) || (n =? 133))%nat.

(** [s.splitlines()]: the lines without their line breaks, CR LF being
    one break; a break at the very end opens no further line.  [line]
    holds the line being read, last character first. *)
Fixpoint splitlines_from (line : list ascii) (s : string) : list string :=
  match s with
  | EmptyString =>
      match line with
      | [] => []
      | _ => [string_of_list_ascii (rev line)]
      end
  | String c s' =>
      if linebreak c then
        string_of_list_ascii (rev line) ::
        match s' with
        | String c' s'' =>
            if (nat_of_ascii c =? 13)%nat && (nat_of_ascii c' =? 10)%nat
            then splitlines_from [] s''
            else splitlines_from [] s'
        | EmptyString => []
        end
      else splitlines_from (c :: line) s'
  end.

Definition splitlines (s : string) : list string := splitlines_from [] s.

(** No character is a line break. *)
Definition one_line (s : string) : bool :=
  forallb (fun c => negb (linebreak c)) (list_ascii_of_string s).

(** [a <= 0] *)
Definition nonpos (a : number) : bool :=
  match a with
  | PyInt x => (x <=? 0)%Z
  | PyFloat f => PrimFloat.leb f 0%float
  end.

(** A double that is a zero of either sign, positive or plus infinity:
    one that [0 <=] holds of. *)
Definition SFnonneg (x : spec_float) : bool :=
  match x with
  | S754_zero _ => true
  | S754_infinity s => negb s
  | S754_finite s _ _ => negb s
  | S754_nan => false
  end.

End PyText.

(** ** The command line of [pair_align.py] *)

Module PairAlignCli.
Import Py PairAlign.

(** What [parse_args] returns, as far as [main] reads it; [matrix] is a
    path object or [None]. *)
Record Args := {
  seq1 : string;
  seq2 : string;
  matrix : option string;
  scope : string;
  gap_open : number;
  gap_extend : number
}.

(** The exceptions that come out of a run from the command line. *)
Definition from_command_line (e : exn) : Prop :=
  match e with
  | OSError _ | ValueError _ | OverflowError | LibraryError _ => True
  | _ => False
  end.

Section Cli.

Variable float_of_str : string -> option float.
Variable fs : string -> option (list string).
Variable NativeMatrix : Type.
Variable substitution_matrices : option (file_arg -> NativeMatrix + string).
Variable engine_align :
  PairwiseAligner NativeMatrix -> string -> string
  -> list EngineAlignment + string.

(** [SCRIPT_DIR/'sub-matrix.txt'] *)
Variable DEFAULT_MATRIX : string.

(** [str(alignment)] for what [align] returns. *)
Definition str_of (alignment : option Alignment) : string :=
  match alignment with
  | Some a => Alignment_str a
  | None => "None"
  end.

(** Lines 64-73 of [main]; the value is the text printed. *)
Definition main (args : Args) : result string :=
  let matrix_path :=
    match matrix args with
    | Some path => path
    | None => DEFAULT_MATRIX
    end in
  alignment ← align float_of_str fs NativeMatrix substitution_matrices engine_align
                (seq1 args) (seq2 args) (scope args) (gap_open args) (gap_extend args)
                (PathArg matrix_path) None;
  Ok (str_of alignment).

End Cli.

End PairAlignCli.

(** ** Helpers of [tests/run.py] *)

Module RunText.
Import Py PyText.

Definition tab : string := String "009"%char EmptyString.
Definition newline : string := String "010"%char EmptyString.

(** Lines 263-268. *)
Definition head (string : String.string) (lines : nat) : String.string :=
  let string_lines := splitlines string in
  let output := String.concat newline (take lines string_lines) in
  if (lines <? length string_lines)%nat
  then output ++ newline ++ tab ++ "..."
  else output.

End RunText.

Module RunTools.
Import Py PyText Run.

(** The calls of test functions that running [tests] one by one makes,
    each looked up in [tests_dict]. *)
Definition invocations (tests_dict : gmap string pyobj) (tests : list string)
    : list event :=
  omap (fun test_name =>
          (fun test_fxn => Invoke test_fxn test_name) <$> tests_dict !! test_name)
       tests.

(** The calls that running a whole group makes. *)
Definition group_invocations (test_group : gmap string pyobj) : list event :=
  map (fun item => Invoke item.2 item.1) (map_to_list test_group).

(** *** [trimmed_diff] *)

(** The values of [header_line]: 0, 1, 2 and [None]. *)
Inductive header_line := Line0 | Line1 | Line2 | LineNone.

(** The [if]/[elif] chain of lines 319-324. *)
Definition trimmed_step (lineterm : string) (h : header_line) (line : string)
    : header_line :=
  match h with
  | Line0 =>
      if String.eqb line ("--- a" ++ RunText.tab ++ "c" ++ lineterm) then Line1 else Line0
  | Line1 =>
      if String.eqb line ("+++ b" ++ RunText.tab ++ "d" ++ lineterm) then Line2 else Line1
  | Line2 => LineNone
  | LineNone => LineNone
  end.

(** The loop of lines 318-326: the lines it yields. *)
Fixpoint trimmed_loop (lineterm : string) (h : header_line) (diff_lines : list string)
    : list string :=
  match diff_lines with
  | [] => []
  | line :: rest =>
      let h' := trimmed_step lineterm h line in
      match h' with
      | LineNone => line :: trimmed_loop lineterm h' rest
      | _ => trimmed_loop lineterm h' rest
      end
  end.

Section Diff.

(** [difflib.unified_diff(lines1, lines2, n=1, fromfile='a', tofile='b',
    fromfiledate='c', tofiledate='d', lineterm=lineterm)] *)
Variable unified_diff : list string -> list string -> string -> list string.

Definition trimmed_diff (lines1 lines2 : list string) (lineterm : string)
    : list string :=
  trimmed_loop lineterm Line0 (unified_diff lines1 lines2 lineterm).

End Diff.

(** *** Running commands *)

(** Where a stream of the child process goes. *)
Inductive stream := Inherited | PIPE | DEVNULL.

(** [subprocess.CompletedProcess], with the output captured (empty
    where none was). *)
Record CompletedProcess := {
  returncode : Z;
  stdout : string;
  stderr : string
}.

Section Subprocess.

(** [subprocess.run(command, stdout=..., stderr=...)]: the finished
    process, or what it raised. *)
Variable subprocess_run :
  list string -> stream -> stream -> result CompletedProcess.

(** [str(data, 'utf8')] *)
Variable utf8 : string -> result string.

(** [f'Error: ({type(error).__name__}) {error}'] *)
Variable describe : exn -> string.

(** [return result] where [result] was never assigned. *)
Definition unbound_result : exn := Exception "UnboundLocalError".

(** Lines 290-300: what [logging.error] recorded, and the result or the
    exception.  Of the two exceptions the [except] clause names only
    OSError can come: [subprocess.run] raises CalledProcessError with
    [check=True] alone, which no caller passes. *)
Definition run_command_and_catch (command : list string) (onerror : string)
    (out err : stream) : list string * result CompletedProcess :=
  match subprocess_run command out err with
  | Ok result => ([], Ok result)
  | Raise (OSError path) =>
      if String.eqb onerror "stderr" then ([], Raise unbound_result)
      else if String.eqb onerror "warn" then
        ([describe (OSError path)], Raise unbound_result)
      else if String.eqb onerror "raise" then ([], Raise (OSError path))
      else ([], Raise unbound_result)
  | Raise e => ([], Raise e)
  end.

(** Lines 281-287. *)
Definition run_command_and_capture (command : list string) (onerror : string)
    : list string * result (string * Z) :=
  match run_command_and_catch command onerror PIPE PIPE with
  | (log, Raise e) => (log, Raise e)
  | (log, Ok result) =>
      let logged :=
        if negb (returncode result =? 0)%Z && String.eqb onerror "stderr"
        then
          match utf8 (stderr result) with
          | Ok text => Ok [text]
          | Raise e => Raise e
          end
        else Ok [] in
      match logged with
      | Raise e => (log, Raise e)
      | Ok texts =>
          ((log ++ texts)%list,
           text ← utf8 (stdout result); Ok (text, returncode result))
      end
  end.

(** Lines 271-278. *)
Definition run_command (command : list string) (onerror : string)
    : list string * result Z :=
  if String.eqb onerror "stderr" then
    match run_command_and_catch command onerror Inherited PIPE with
    | (log, Raise e) => (log, Raise e)
    | (log, Ok result) =>
        if negb (returncode result =? 0)%Z then
          match utf8 (stderr result) with
          | Ok text => ((log ++ [text])%list, Ok (returncode result))
          | Raise e => (log, Raise e)
          end
        else (log, Ok (returncode result))
    end
  else
    match run_command_and_catch command onerror Inherited DEVNULL with
    | (log, Raise e) => (log, Raise e)
    | (log, Ok result) => (log, Ok (returncode result))
    end.

End Subprocess.

End RunTools.

(** ** More sample inputs *)

Module MoreSamples.
Import Py PyText PairAlign PairAlignCli Run RunTools.

Definition more_fs (p : string) : option (list string) :=
  if String.eqb p "header-only.txt" then Some ["# symbols"; "A C G T"]
  else if String.eqb p "override.txt" then
    Some ["A C A"; "A 1 2 3"; "C 4 5 6"; "A 7 8 9"]
  else if String.eqb p "bad-and-long.txt" then Some ["A C"; "A 1 2"; "C 3 x 5"]
  else if String.eqb p "commented.txt" then Some ["# c"; "A C"; "  # d"; "A 1"]
  else if String.eqb p "blank-row.txt" then Some ["A C"; "A 1 2"; "   "; "C 3 4"]
  else None.

(** The DNA matrix, loaded. *)
Definition dna_matrix : gmap (string * string) float :=
  match substitution_matrix_loader sample_float sample_fs (PathArg "sub-matrix.txt") with
  | Ok m => m
  | Raise _ => ∅
  end.

(** The matrix of the file with a repeated row and a repeated column,
    loaded. *)
Definition override_matrix : gmap (string * string) float :=
  match substitution_matrix_loader sample_float more_fs (PathArg "override.txt") with
  | Ok m => m
  | Raise _ => ∅
  end.

(** An alignment as the engine prints it. *)
Definition acgt_text : string :=
  "ACGT" ++ String "010" ("||||" ++ String "010" "ACGT").

Definition acgt_alignment : EngineAlignment :=
  {| printed_lines := splitlines acgt_text; engine_score := 4%float |}.

Definition acgt_wrapper : Alignment :=
  {| target := "ACGT"; matches_str := "||||"; query := "ACGT"; score := 4%float |}.

(** An alignment that prints as four lines. *)
Definition wrapped_alignment : EngineAlignment :=
  {| printed_lines := ["ACGT"; "||||"; "ACGT"; ""]; engine_score := 4%float |}.

(** An engine that finds three alignments, the second of them printed as
    four lines. *)
Definition three_alignments (engine : PairwiseAligner unit) (seq1 seq2 : string)
    : list EngineAlignment + string :=
  inl [acgt_alignment; wrapped_alignment; acgt_alignment].

(** An engine whose first alignment prints as four lines. *)
Definition wrapped_first (engine : PairwiseAligner unit) (seq1 seq2 : string)
    : list EngineAlignment + string :=
  inl [wrapped_alignment; acgt_alignment].

(** A unified diff in miniature: nothing for equal inputs, else the two
    header lines, one hunk header, the lines removed and the lines added. *)
Definition small_unified_diff (lines1 lines2 : list string) (lineterm : string)
    : list string :=
  if bool_decide (lines1 = lines2) then []
  else
    ("--- a" ++ RunText.tab ++ "c" ++ lineterm)
    :: ("+++ b" ++ RunText.tab ++ "d" ++ lineterm)
    :: ("@@ -1 +1 @@" ++ lineterm)
    :: (map (fun l => ("-" ++ l)%string) lines1
        ++ map (fun l => ("+" ++ l)%string) lines2)%list.

(** A system with two commands: [true] and [false]. *)
Definition small_subprocess_run (command : list string) (out err : stream)
    : result CompletedProcess :=
  match command with
  | ["true"] => Ok {| returncode := 0; stdout := ""; stderr := "" |}
  | ["false"] => Ok {| returncode := 1; stdout := ""; stderr := "failed" |}
  | _ => Raise (OSError "No such file or directory")
  end.

(** The test [trimmer] raises, the others return. *)
Definition trimmer_raises (test_fxn : pyobj) (test_name : string) : option exn :=
  if String.eqb test_name "trimmer" then Some (Exception "boom") else None.

(** A command line that names a matrix file that is not there. *)
Definition missing_matrix_args : Args :=
  {| seq1 := "ACGT"; seq2 := "ACGT"; matrix := Some "missing.txt";
     scope := "local"; gap_open := PyInt 0; gap_extend := PyFloat 2.5 |}.

End MoreSamples.

(** * Properties of [pair_align.py] *)

Module PairAlignFacts.
Import Py PairAlign.

(** ** Comprehensions *)

Lemma comprehension_Forall2 {A B} (f : A -> result B) xs ys :
  comprehension f xs = Ok ys <-> Forall2 (fun x y => f x = Ok y) xs ys.
Proof.
  revert ys. induction xs as [|x xs IH]; intros ys; simpl.
  - split.
    + intros [= <-]. constructor.
    + intros H. inversion H. reflexivity.
  - split.
    + destruct (f x) as [y|e] eqn:Hfx; simpl; [|discriminate].
      destruct (comprehension f xs) as [ys'|e] eqn:Hxs; simpl; [|discriminate].
      intros [= <-]. constructor; [assumption|]. apply IH. reflexivity.
    + intros H. inversion H as [|? y ? ys' Hy Hys]; subst.
      rewrite Hy. simpl. apply IH in Hys. rewrite Hys. reflexivity.
Qed.

Lemma comprehension_length {A B} (f : A -> result B) xs ys :
  comprehension f xs = Ok ys -> length ys = length xs.
Proof.
  intros H. apply comprehension_Forall2 in H.
  symmetry. eapply Forall2_length, H.
Qed.

Lemma comprehension_total {A B} (f : A -> result B) xs :
  Forall (fun x => exists y, f x = Ok y) xs -> exists ys, comprehension f xs = Ok ys.
Proof.
  induction 1 as [|x xs [y Hy] _ [ys Hys]]; simpl.
  - eexists. reflexivity.
  - rewrite Hy. simpl. rewrite Hys. eexists. reflexivity.
Qed.

Lemma comprehension_Raise {A B} (f : A -> result B) xs e :
  comprehension f xs = Raise e -> exists x, x ∈ xs /\ f x = Raise e.
Proof.
  induction xs as [|x xs IH]; simpl; [discriminate|].
  destruct (f x) as [y|e'] eqn:Hfx; simpl.
  - destruct (comprehension f xs) as [ys|e'']; simpl; [discriminate|].
    intros [= <-]. destruct (IH eq_refl) as (x' & Hin & Hx').
    exists x'. split; [right; assumption | assumption].
  - intros [= <-]. exists x. split; [left | assumption].
Qed.

(** A comprehension raises what its first failing element raises. *)
Lemma comprehension_first_failure {A B} (f : A -> result B) pre x post ys e :
  comprehension f pre = Ok ys -> f x = Raise e ->
  comprehension f (pre ++ x :: post) = Raise e.
Proof.
  revert ys. induction pre as [|p pre IH]; intros ys; simpl.
  - intros _ ->. reflexivity.
  - destruct (f p) as [y|e']; simpl; [|discriminate].
    destruct (comprehension f pre) as [ys'|e'] eqn:Hpre; simpl; [|discriminate].
    intros _ Hx. rewrite (IH ys' eq_refl Hx). reflexivity.
Qed.

(** ** The loop of the loader *)

Section LoaderLoop.

Variable float_of_str : string -> option float.

Abbreviation loader_step := (loader_step float_of_str).
Abbreviation loader_loop := (loader_loop float_of_str).
Abbreviation parse_row := (parse_row float_of_str).

Lemma loader_step_comment st n raw :
  is_comment raw = true -> loader_step st n raw = Ok st.
Proof. unfold loader_step, is_comment. intros ->. reflexivity. Qed.

Lemma loader_step_header m n raw :
  is_comment raw = false ->
  loader_step (LoaderState None m) n raw = Ok (LoaderState (Some (split (strip raw))) m).
Proof. unfold loader_step, is_comment. intros ->. reflexivity. Qed.

Lemma loader_step_row xb m n raw :
  is_comment raw = false ->
  loader_step (LoaderState (Some xb) m) n raw =
    row ← parse_row xb (n, raw);
    Ok (LoaderState (Some xb) (store_row row.1 m (zip xb row.2))).
Proof.
  unfold loader_step, is_comment, parse_row. intros ->. simpl.
  destruct (split (strip raw)) as [|y strs]; [reflexivity|].
  unfold pyfloat. simpl.
  destruct (comprehension _ strs) as [scores|e]; simpl; [|reflexivity].
  destruct (length scores =? length xb)%nat; reflexivity.
Qed.

(** Comment lines leave no trace, wherever they stand. *)
Lemma loader_loop_noncomment st lines :
  loader_loop st lines = loader_loop st (noncomment lines).
Proof.
  revert st. induction lines as [|[n raw] lines IH]; intros st; [reflexivity|].
  unfold noncomment. rewrite filter_cons. fold (noncomment lines).
  case_decide as Hc; cbn [snd] in Hc.
  - cbn [PairAlign.loader_loop].
    destruct (loader_step st n raw); simpl; [apply IH | reflexivity].
  - apply not_false_is_true in Hc. cbn [PairAlign.loader_loop].
    rewrite loader_step_comment by assumption. simpl. apply IH.
Qed.

Lemma noncomment_Forall lines :
  Forall (fun item => is_comment item.2 = false) (noncomment lines).
Proof.
  apply Forall_forall. intros item Hin.
  unfold noncomment in Hin. apply list_elem_of_filter in Hin. tauto.
Qed.

(** Once the header is read, the loop parses the remaining lines that are
    no comments one by one and stores each row. *)
Lemma loader_loop_rows xb m lines :
  Forall (fun item => is_comment item.2 = false) lines ->
  loader_loop (LoaderState (Some xb) m) lines =
    rows ← comprehension (parse_row xb) lines;
    Ok (LoaderState (Some xb) (fill xb m rows)).
Proof.
  intros Hall. revert m. induction Hall as [|[n raw] lines Hc _ IH]; intros m.
  - reflexivity.
  - simpl in Hc. cbn [PairAlign.loader_loop comprehension].
    rewrite loader_step_row by assumption.
    destruct (parse_row xb (n, raw)) as [row|e]; simpl; [|reflexivity].
    rewrite IH.
    destruct (comprehension _ lines) as [rows|e]; reflexivity.
Qed.

(** The loader, as a function of the header and the data rows. *)
Lemma load_lines_rows lines xb :
  header lines = Some xb ->
  load_lines float_of_str lines =
    rows ← comprehension (parse_row xb) (data_rows lines);
    Ok (fill xb ∅ rows).
Proof.
  unfold header, data_rows, load_lines. rewrite loader_loop_noncomment.
  pose proof (noncomment_Forall (enumerate 1 lines)) as Hall.
  destruct (noncomment (enumerate 1 lines)) as [|[n h] rest]; [discriminate|].
  intros [= <-]. inversion Hall as [|? ? Hh Hrest]; subst. cbn [snd] in Hh.
  cbn [PairAlign.loader_loop tail]. rewrite loader_step_header by assumption.
  simpl. rewrite loader_loop_rows by assumption.
  destruct (comprehension _ rest); reflexivity.
Qed.

Lemma load_lines_no_header lines :
  header lines = None -> load_lines float_of_str lines = Ok ∅.
Proof.
  unfold header, load_lines. rewrite loader_loop_noncomment.
  destruct (noncomment (enumerate 1 lines)); [reflexivity | discriminate].
Qed.

(** What a successfully parsed row looks like. *)
Lemma parse_row_Ok xb n raw y scores :
  parse_row xb (n, raw) = Ok (y, scores) <->
  row_symbol raw = Some y
  /\ Forall2 (fun s f => float_of_str s = Some f) (score_strs raw) scores
  /\ length (score_strs raw) = length xb.
Proof.
  unfold parse_row, row_symbol, score_strs. cbn [fst snd].
  destruct (split (strip raw)) as [|y' strs]; simpl.
  - split; [discriminate | intros [[=] _]].
  - destruct (comprehension _ strs) as [scores'|e] eqn:Hc; simpl.
    + apply comprehension_Forall2 in Hc.
      assert (Forall2 (fun s f => float_of_str s = Some f) strs scores') as Hc'.
      { eapply Forall2_impl; [exact Hc|]. simpl. intros s f.
        destruct (float_of_str s); [intros [= ->]; reflexivity | discriminate]. }
      pose proof (Forall2_length _ _ _ Hc') as Hlen.
      destruct (length scores' =? length xb)%nat eqn:Hn; simpl.
      * apply Nat.eqb_eq in Hn. split.
        -- intros [= -> ->]. repeat split; [assumption | congruence].
        -- intros ([= ->] & Hs & _). do 2 f_equal.
           clear -Hs Hc'. revert scores Hs. induction Hc'; intros ? Hs; inversion Hs; subst.
           ++ reflexivity.
           ++ f_equal; [congruence | auto].
      * apply Nat.eqb_neq in Hn. split; [discriminate|].
        intros (_ & _ & Hl). lia.
    + split; [discriminate|]. intros (_ & Hs & _). exfalso.
      assert (comprehension
                (fun s => match float_of_str s with
                          | Some f => Ok f
                          | None => Raise (ValueError (BadFloat s))
                          end) strs = Ok scores) as Hok.
      { apply comprehension_Forall2. eapply Forall2_impl; [exact Hs|].
        simpl. intros s f ->. reflexivity. }
      congruence.
Qed.

End LoaderLoop.

(** ** Assignments to a dict, one after the other *)

Section Assignments.

Context {K : Type} `{Countable K} {V : Type}.

Lemma foldl_assign_snoc (m : gmap K V) kvs kv :
  foldl assign m (kvs ++ [kv]) = <[kv.1 := kv.2]> (foldl assign m kvs).
Proof. rewrite foldl_app. reflexivity. Qed.

(** A key holds what was assigned to it or what it held before. *)
Lemma foldl_assign_lookup_Some (m : gmap K V) kvs k v :
  foldl assign m kvs !! k = Some v -> (k, v) ∈ kvs \/ m !! k = Some v.
Proof.
  induction kvs as [|kv kvs IH] using rev_ind; [auto|].
  rewrite foldl_assign_snoc. destruct kv as [k' v']. simpl.
  destruct (decide (k' = k)) as [->|Hne].
  - rewrite lookup_insert_eq. intros [= ->]. left. apply elem_of_app. right.
    apply list_elem_of_singleton. reflexivity.
  - rewrite lookup_insert_ne by assumption. intros Hl.
    destruct (IH Hl) as [Hin|Hm]; [left | right; assumption].
    apply elem_of_app. left. assumption.
Qed.

(** With every key assigned once, each key holds its value. *)
Lemma foldl_assign_lookup_NoDup (m : gmap K V) kvs k v :
  NoDup kvs.*1 -> (k, v) ∈ kvs -> foldl assign m kvs !! k = Some v.
Proof.
  induction kvs as [|kv kvs IH] using rev_ind; intros Hnd Hin.
  - apply elem_of_nil in Hin. destruct Hin.
  - rewrite foldl_assign_snoc. destruct kv as [k' v']. simpl.
    rewrite fmap_app in Hnd. apply NoDup_app in Hnd as (Hnd & Hdisj & _).
    apply elem_of_app in Hin as [Hin|Hin].
    + rewrite lookup_insert_ne; [apply IH; assumption|].
      intros ->. apply (Hdisj k).
      * apply list_elem_of_fmap. exists (k, v). auto.
      * simpl. apply list_elem_of_singleton. reflexivity.
    + apply list_elem_of_singleton in Hin. injection Hin as -> ->.
      apply lookup_insert_eq.
Qed.

(** With every key assigned once, there are as many entries as
    assignments. *)
Lemma foldl_assign_size (kvs : list (K * V)) :
  NoDup kvs.*1 -> size (foldl assign (∅ : gmap K V) kvs) = length kvs.
Proof.
  induction kvs as [|kv kvs IH] using rev_ind; intros Hnd.
  - simpl. apply map_size_empty.
  - rewrite foldl_assign_snoc, length_app. simpl.
    rewrite fmap_app in Hnd. apply NoDup_app in Hnd as (Hnd & Hdisj & _).
    rewrite map_size_insert_None; [rewrite IH by assumption; lia|].
    destruct (foldl assign ∅ kvs !! kv.1) as [v|] eqn:Hl; [|reflexivity].
    apply foldl_assign_lookup_Some in Hl as [Hin|Hl].
    + exfalso. apply (Hdisj kv.1).
      * apply list_elem_of_fmap. exists (kv.1, v). auto.
      * simpl. apply list_elem_of_singleton. reflexivity.
    + rewrite lookup_empty in Hl. discriminate.
Qed.

End Assignments.


(** ** The entries of a loaded matrix *)

Lemma store_row_assign y m cells :
  store_row y m cells =
    foldl assign m ((fun cell : string * float => ((cell.1, y), cell.2)) <$> cells).
Proof.
  unfold store_row. revert m.
  induction cells as [|cell cells IH]; intros m; [reflexivity|]. simpl. apply IH.
Qed.

Lemma fill_entries xb m rows : fill xb m rows = foldl assign m (entries xb rows).
Proof.
  unfold fill, entries. revert m.
  induction rows as [|row rows IH]; intros m; [reflexivity|].
  cbn [foldl mbind list_bind]. rewrite foldl_app, IH, store_row_assign. reflexivity.
Qed.

Lemma entries_cons xb row rows :
  entries xb (row :: rows) =
    (((fun cell : string * float => ((cell.1, row.1), cell.2)) <$> zip xb row.2)
     ++ entries xb rows)%list.
Proof. reflexivity. Qed.

Lemma entries_length xb rows :
  Forall (fun row : string * list float => length row.2 = length xb) rows ->
  length (entries xb rows) = length xb * length rows.
Proof.
  induction 1 as [|row rows Hrow _ IH]; [simpl; lia|].
  rewrite entries_cons, length_app, length_fmap, length_zip, Hrow, IH. simpl. lia.
Qed.

Lemma row_keys xb (row : string * list float) :
  length row.2 = length xb ->
  ((fun cell : string * float => ((cell.1, row.1), cell.2)) <$> zip xb row.2).*1
  = (fun x => (x, row.1)) <$> xb.
Proof.
  intros Hlen. rewrite <- list_fmap_compose.
  rewrite <- (fst_zip xb row.2) at 2 by lia.
  rewrite <- list_fmap_compose. reflexivity.
Qed.

Lemma entries_key_row xb rows k :
  k ∈ (entries xb rows).*1 -> k.2 ∈ rows.*1.
Proof.
  induction rows as [|row rows IH]; [intros Hin; apply elem_of_nil in Hin; destruct Hin|].
  rewrite entries_cons, fmap_app. intros Hin. apply elem_of_app in Hin as [Hin|Hin].
  - apply list_elem_of_fmap in Hin as (kv & -> & Hin).
    apply list_elem_of_fmap in Hin as (cell & -> & _). simpl. left.
  - simpl. right. apply IH, Hin.
Qed.

Lemma entries_keys_NoDup xb rows :
  Forall (fun row : string * list float => length row.2 = length xb) rows ->
  NoDup xb -> NoDup rows.*1 -> NoDup (entries xb rows).*1.
Proof.
  intros Hlen Hxb. induction Hlen as [|row rows Hrow _ IH]; intros Hrows.
  - constructor.
  - rewrite fmap_cons in Hrows. apply NoDup_cons in Hrows as [Hnotin Hrows].
    rewrite entries_cons, fmap_app. apply NoDup_app. split; [|split].
    + rewrite row_keys by assumption. apply NoDup_fmap_2; [|assumption].
      intros x x' [=]. assumption.
    + intros k Hk Hk'. apply entries_key_row in Hk'.
      rewrite row_keys in Hk by assumption.
      apply list_elem_of_fmap in Hk as (x & -> & _). simpl in Hk'. contradiction.
    + apply IH, Hrows.
Qed.

(** An entry of [entries] is a column symbol, a row symbol and the score
    under the one in the other's row. *)
Lemma elem_of_entries xb rows c r v :
  ((c, r), v) ∈ entries xb rows <->
  exists scores i, (r, scores) ∈ rows /\ xb !! i = Some c /\ scores !! i = Some v.
Proof.
  unfold entries. rewrite list_elem_of_bind. split.
  - intros ([y scores] & Hin & Hrow). simpl in Hin.
    apply list_elem_of_fmap in Hin as ([x f] & [= -> -> ->] & Hin).
    apply list_elem_of_lookup in Hin as [i Hi].
    apply lookup_zip_Some in Hi as [Hx Hf]. eauto.
  - intros (scores & i & Hrow & Hx & Hf). exists (r, scores). split; [|assumption].
    simpl. apply list_elem_of_fmap. exists (c, v). split; [reflexivity|].
    apply list_elem_of_lookup. exists i. apply lookup_zip_Some. auto.
Qed.

(** ** Rows of a file and parsed rows *)

Section Rows.

Variable float_of_str : string -> option float.

Abbreviation parse_row := (parse_row float_of_str).

Lemma parsed_rows_symbols xb items rows :
  Forall2 (fun item row => parse_row xb item = Ok row) items rows ->
  rows.*1 = omap (fun item : nat * string => row_symbol item.2) items.
Proof.
  induction 1 as [|[n raw] [y scores] items rows Hrow _ IH]; [reflexivity|].
  apply parse_row_Ok in Hrow as (Hy & _ & _).
  rewrite fmap_cons. cbn [omap list_omap snd fst]. rewrite Hy. f_equal. exact IH.
Qed.

Lemma parsed_rows_lengths xb items rows :
  Forall2 (fun item row => parse_row xb item = Ok row) items rows ->
  Forall (fun row : string * list float => length row.2 = length xb) rows.
Proof.
  induction 1 as [|[n raw] [y scores] items rows Hrow _ IH]; constructor; [|assumption].
  apply parse_row_Ok in Hrow as (_ & Hs & Hl). simpl.
  apply Forall2_length in Hs. lia.
Qed.

Lemma scores_exist strs :
  forallb (fun s => bool_decide (is_Some (float_of_str s))) strs = true ->
  exists scores, Forall2 (fun s f => float_of_str s = Some f) strs scores.
Proof.
  induction strs as [|s strs IH]; simpl.
  - exists []. constructor.
  - intros [Hs Hrest]%andb_true_iff. apply bool_decide_eq_true in Hs as [f Hf].
    destruct (IH Hrest) as [scores Hscores]. exists (f :: scores). constructor; assumption.
Qed.

(** A row with a symbol, numbers for scores and one score per column
    parses. *)
Lemma parse_row_total xb n raw :
  tokens_ok float_of_str raw = true -> count_ok xb raw = true ->
  exists row, parse_row xb (n, raw) = Ok row.
Proof.
  unfold tokens_ok, count_ok.
  intros [Hy Hs]%andb_true_iff Hc. apply bool_decide_eq_true in Hy as [y Hy].
  apply scores_exist in Hs as [scores Hs]. apply Nat.eqb_eq in Hc.
  exists (y, scores). apply parse_row_Ok. auto.
Qed.

(** A well-formed file loads. *)
Lemma well_formed_parses lines xb :
  well_formed float_of_str lines = true -> header lines = Some xb ->
  exists rows, comprehension (parse_row xb) (data_rows lines) = Ok rows.
Proof.
  unfold well_formed. intros Hwf Hh. rewrite Hh in Hwf.
  apply comprehension_total. apply Forall_forall. intros [n raw] Hin.
  rewrite forallb_forall in Hwf. apply list_elem_of_In in Hin.
  specialize (Hwf _ Hin). simpl in Hwf. apply andb_true_iff in Hwf as [Ht Hc].
  apply parse_row_total; assumption.
Qed.

End Rows.

(** ** The loader on a well-formed file *)

Section LoaderClaims.

Variable float_of_str : string -> option float.
Variable fs : string -> option (list string).

Abbreviation loader := (substitution_matrix_loader float_of_str fs).

(** On a well-formed file the loader returns the assignments of the
    parsed data rows, made in order to an empty dict. *)
Lemma loader_well_formed p lines xb :
  fs p = Some lines ->
  well_formed float_of_str lines = true -> header lines = Some xb ->
  exists rows,
    Forall2 (fun item row => PairAlign.parse_row float_of_str xb item = Ok row)
            (data_rows lines) rows
    /\ loader (PathArg p) = Ok (foldl assign ∅ (entries xb rows)).
Proof.
  intros Hfs Hwf Hh.
  destruct (well_formed_parses float_of_str lines xb Hwf Hh) as [rows Hrows].
  exists rows. split; [apply comprehension_Forall2, Hrows|].
  unfold substitution_matrix_loader. rewrite Hfs.
  rewrite (load_lines_rows float_of_str lines xb Hh), Hrows. simpl.
  rewrite fill_entries. reflexivity.
Qed.

(** C2, as amended: a well-formed file whose N column symbols are pairwise
    distinct and whose M data rows have pairwise distinct row symbols
    loads into a mapping of exactly N×M entries. *)
Theorem loader_entry_count p lines xb :
  fs p = Some lines ->
  well_formed float_of_str lines = true -> header lines = Some xb ->
  NoDup xb -> NoDup (row_symbols lines) ->
  exists m, loader (PathArg p) = Ok m
            /\ size m = length xb * length (data_rows lines).
Proof.
  intros Hfs Hwf Hh Hxb Hsyms.
  destruct (loader_well_formed p lines xb Hfs Hwf Hh) as (rows & Hrows & Hload).
  eexists. split; [exact Hload|].
  pose proof (parsed_rows_lengths _ _ _ _ Hrows) as Hlens.
  rewrite foldl_assign_size.
  - rewrite entries_length by assumption. f_equal. symmetry.
    eapply Forall2_length, Hrows.
  - apply entries_keys_NoDup; [assumption..|].
    rewrite (parsed_rows_symbols _ _ _ _ Hrows). exact Hsyms.
Qed.

(** C4, as amended: in a well-formed file with pairwise distinct column
    symbols and pairwise distinct row symbols, the loader maps the key
    (c, r), column symbol first, to the i-th score of the row of r, for
    the column symbol c at index i. *)
Theorem loader_entry_value p lines xb n raw r i c s :
  fs p = Some lines ->
  well_formed float_of_str lines = true -> header lines = Some xb ->
  NoDup xb -> NoDup (row_symbols lines) ->
  (n, raw) ∈ data_rows lines -> row_symbol raw = Some r ->
  xb !! i = Some c -> score_strs raw !! i = Some s ->
  exists m v, loader (PathArg p) = Ok m
              /\ float_of_str s = Some v
              /\ m !! (c, r) = Some v.
Proof.
  intros Hfs Hwf Hh Hxb Hsyms Hin Hr Hc Hs.
  destruct (loader_well_formed p lines xb Hfs Hwf Hh) as (rows & Hrows & Hload).
  apply list_elem_of_lookup in Hin as [j Hj].
  destruct (Forall2_lookup_l _ _ _ _ _ Hrows Hj) as ([y scores] & Hrow & Hparse).
  apply parse_row_Ok in Hparse as (Hy & Hscores & _).
  assert (y = r) as -> by congruence.
  destruct (Forall2_lookup_l _ _ _ _ _ Hscores Hs) as (v & Hv & Hsv).
  exists (foldl assign ∅ (entries xb rows)), v. repeat split; [assumption..|].
  apply foldl_assign_lookup_NoDup.
  - apply entries_keys_NoDup; [eapply parsed_rows_lengths, Hrows|assumption|].
    rewrite (parsed_rows_symbols _ _ _ _ Hrows). exact Hsyms.
  - apply elem_of_entries. exists scores, i. repeat split; [|assumption..].
    apply list_elem_of_lookup. eauto.
Qed.

(** A row whose tokens are in order but whose scores are too many or too
    few raises the error that names its line. *)
Lemma parse_row_mismatch xb n raw :
  tokens_ok float_of_str raw = true -> count_ok xb raw = false ->
  PairAlign.parse_row float_of_str xb (n, raw) =
    Raise (ValueError (CountMismatch n (length (score_strs raw)) (length xb))).
Proof.
  unfold tokens_ok, count_ok, PairAlign.parse_row, row_symbol, score_strs. cbn [fst snd].
  intros [Hy Hs]%andb_true_iff Hc. apply bool_decide_eq_true in Hy as [y Hy].
  destruct (split (strip raw)) as [|y' strs]; [discriminate|]. simpl in *.
  apply scores_exist in Hs as [scores Hs].
  assert (comprehension
            (fun s => match float_of_str s with
                      | Some f => Ok f
                      | None => Raise (ValueError (BadFloat s))
                      end) strs = Ok scores) as ->.
  { apply comprehension_Forall2. eapply Forall2_impl; [exact Hs|].
    simpl. intros s f ->. reflexivity. }
  simpl. apply Forall2_length in Hs. rewrite <- Hs, Hc. reflexivity.
Qed.

(** Either every row has one score per column, or there is a first row
    that has not. *)
Lemma first_mismatch xb (items : list (nat * string)) :
  Forall (fun item => count_ok xb item.2 = true) items
  \/ exists pre item post,
       items = (pre ++ item :: post)%list
       /\ Forall (fun item => count_ok xb item.2 = true) pre
       /\ count_ok xb item.2 = false.
Proof.
  induction items as [|item items IH]; [left; constructor|].
  destruct (count_ok xb item.2) eqn:Hc.
  - destruct IH as [Hall|(pre & bad & post & -> & Hpre & Hbad)].
    + left. constructor; assumption.
    + right. exists (item :: pre), bad, post. repeat split; [|assumption].
      constructor; assumption.
  - right. exists [], item, items. repeat split; [constructor | assumption].
Qed.

(** C3, as amended: when every data row has a row symbol and numbers for
    scores, the loader raises an error if and only if some data row's
    number of scores differs from the number of column symbols, and the
    error is then the ValueError naming the first such line. *)
Theorem loader_raises_iff_mismatch p lines :
  fs p = Some lines -> all_tokens_ok float_of_str lines = true ->
  ((exists e, loader (PathArg p) = Raise e) <-> has_mismatch lines = true)
  /\ (forall e, loader (PathArg p) = Raise e ->
        exists xb pre n raw post,
          header lines = Some xb
          /\ data_rows lines = (pre ++ (n, raw) :: post)%list
          /\ Forall (fun item => count_ok xb item.2 = true) pre
          /\ count_ok xb raw = false
          /\ e = ValueError (CountMismatch n (length (score_strs raw)) (length xb))).
Proof.
  intros Hfs Htok. unfold substitution_matrix_loader, has_mismatch. rewrite Hfs.
  destruct (header lines) as [xb|] eqn:Hh.
  2:{ rewrite load_lines_no_header by assumption.
      split; [split; [intros [e [=]] | discriminate] | intros e [=]]. }
  rewrite (load_lines_rows float_of_str lines xb Hh).
  unfold all_tokens_ok in Htok. rewrite forallb_forall in Htok.
  destruct (first_mismatch xb (data_rows lines))
    as [Hall|(pre & [n raw] & post & Hsplit & Hpre & Hbad)].
  - (* every row parses: no error *)
    destruct (comprehension_total (PairAlign.parse_row float_of_str xb) (data_rows lines))
      as [rows ->].
    { apply Forall_forall. intros [n raw] Hin. apply parse_row_total.
      - apply (Htok (n, raw)). apply list_elem_of_In, Hin.
      - rewrite Forall_forall in Hall. apply (Hall (n, raw) Hin). }
    simpl. split; [split; [intros [e [=]]|] | intros e [=]].
    intros Hex. apply existsb_exists in Hex as (item & Hin & Hneg).
    rewrite Forall_forall in Hall. apply list_elem_of_In in Hin.
    rewrite (Hall item Hin) in Hneg. discriminate.
  - (* the first row out of line raises *)
    assert (comprehension (PairAlign.parse_row float_of_str xb) (data_rows lines)
            = Raise (ValueError (CountMismatch n (length (score_strs raw)) (length xb))))
      as Hraise.
    { destruct (comprehension_total (PairAlign.parse_row float_of_str xb) pre)
        as [rows Hrows].
      { apply Forall_forall. intros [k l] Hin. apply parse_row_total.
        - apply (Htok (k, l)). rewrite Hsplit. apply in_or_app. left.
          apply list_elem_of_In, Hin.
        - rewrite Forall_forall in Hpre. apply (Hpre (k, l) Hin). }
      rewrite Hsplit. eapply comprehension_first_failure; [exact Hrows|].
      apply parse_row_mismatch; [|assumption].
      apply (Htok (n, raw)). rewrite Hsplit. apply in_or_app. right. left. reflexivity. }
    rewrite Hraise. simpl. split; [split|].
    + intros _. apply existsb_exists. exists (n, raw). split.
      * rewrite Hsplit. apply in_or_app. right. left. reflexivity.
      * simpl in *. rewrite Hbad. reflexivity.
    + intros _. eexists. reflexivity.
    + intros e [= <-]. exists xb, pre, n, raw, post. auto.
Qed.

(** A line that starts with [#] is a comment for the loader, which looks
    at the line stripped of surrounding whitespace. *)
Lemma startswith_hash_is_comment raw :
  startswith raw "#" = true -> is_comment raw = true.
Proof.
  unfold is_comment, startswith, strip.
  destruct raw as [|c raw]; [discriminate|]. cbn [String.prefix].
  destruct (ascii_dec "#" c) as [<-|]; [|discriminate]. intros _.
  change (lstrip (String "#" raw)) with (String "#" raw). cbn [rstrip].
  destruct (rstrip raw); reflexivity.
Qed.

Lemma data_rows_noncomment lines n raw :
  (n, raw) ∈ data_rows lines -> is_comment raw = false.
Proof.
  unfold data_rows. intros Hin.
  pose proof (noncomment_Forall (enumerate 1 lines)) as Hall.
  destruct (noncomment (enumerate 1 lines)) as [|first rest].
  - apply elem_of_nil in Hin. destruct Hin.
  - inversion Hall as [|? ? _ Hrest]; subst. rewrite Forall_forall in Hrest.
    apply (Hrest (n, raw) Hin).
Qed.

(** C5: the loader ignores every comment line (one starting with [#]),
    takes the first line that is no comment as the ordered list of column
    symbols, and produces entries from data rows only: none from a comment
    line, none from the header line. *)
Theorem loader_comments_and_header p lines :
  fs p = Some lines ->
  (forall raw, startswith raw "#" = true -> is_comment raw = true)
  /\ loader (PathArg p) =
       (st ← loader_loop float_of_str (LoaderState None ∅) (noncomment (enumerate 1 lines));
        Ok (matrix st))
  /\ (forall pre n raw post,
        enumerate 1 lines = (pre ++ (n, raw) :: post)%list -> is_comment raw = true ->
        loader (PathArg p) =
          (st ← loader_loop float_of_str (LoaderState None ∅) (pre ++ post)%list;
           Ok (matrix st)))
  /\ (forall n h rest,
        noncomment (enumerate 1 lines) = (n, h) :: rest ->
        loader (PathArg p) =
          (st ← loader_loop float_of_str (LoaderState (Some (split (strip h))) ∅) rest;
           Ok (matrix st)))
  /\ (forall m c r v,
        loader (PathArg p) = Ok m -> m !! (c, r) = Some v ->
        exists xb n raw i s,
          header lines = Some xb
          /\ (n, raw) ∈ data_rows lines /\ is_comment raw = false
          /\ row_symbol raw = Some r
          /\ xb !! i = Some c /\ score_strs raw !! i = Some s
          /\ float_of_str s = Some v).
Proof.
  intros Hfs. unfold substitution_matrix_loader. rewrite Hfs.
  split; [exact startswith_hash_is_comment|]. split; [|split; [|split]].
  - unfold load_lines. rewrite loader_loop_noncomment. reflexivity.
  - intros pre n raw post Hsplit Hc. unfold load_lines.
    rewrite (loader_loop_noncomment _ _ (enumerate 1 lines)).
    rewrite (loader_loop_noncomment _ _ (pre ++ post)%list).
    rewrite Hsplit. unfold noncomment. rewrite !filter_app, filter_cons_False; [reflexivity|].
    simpl. rewrite Hc. discriminate.
  - intros n h rest Hnc. unfold load_lines. rewrite loader_loop_noncomment, Hnc.
    pose proof (noncomment_Forall (enumerate 1 lines)) as Hall. rewrite Hnc in Hall.
    inversion Hall as [|? ? Hh _]; subst. cbn [snd] in Hh.
    cbn [PairAlign.loader_loop]. rewrite loader_step_header by assumption. reflexivity.
  - intros m c r v Hload Hm.
    destruct (header lines) as [xb|] eqn:Hh.
    2:{ rewrite load_lines_no_header in Hload by assumption.
        injection Hload as <-. rewrite lookup_empty in Hm. discriminate. }
    rewrite (load_lines_rows float_of_str lines xb Hh) in Hload.
    destruct (comprehension _ (data_rows lines)) as [rows|e] eqn:Hrows; [|discriminate].
    simpl in Hload. injection Hload as <-. rewrite fill_entries in Hm.
    apply comprehension_Forall2 in Hrows.
    apply foldl_assign_lookup_Some in Hm as [Hin|Hm];
      [|rewrite lookup_empty in Hm; discriminate].
    apply elem_of_entries in Hin as (scores & i & Hrow & Hc & Hv).
    apply list_elem_of_lookup in Hrow as [j Hj].
    destruct (Forall2_lookup_r _ _ _ _ _ Hrows Hj) as ([n raw] & Hitem & Hparse).
    apply parse_row_Ok in Hparse as (Hy & Hscores & _).
    destruct (Forall2_lookup_r _ _ _ _ _ Hscores Hv) as (s & Hs & Hsv).
    assert ((n, raw) ∈ data_rows lines) as Hin
      by (apply list_elem_of_lookup; eauto).
    exists xb, n, raw, i, s. repeat split; try assumption.
    eapply data_rows_noncomment, Hin.
Qed.

End LoaderClaims.

(** ** The aligner *)

Section AlignerClaims.

Variable float_of_str : string -> option float.
Variable fs : string -> option (list string).
Variable NativeMatrix : Type.
Variable substitution_matrices : option (file_arg -> NativeMatrix + string).
Variable engine_align :
  PairwiseAligner NativeMatrix -> string -> string
  -> list EngineAlignment + string.

Abbreviation Aligner_init :=
  (Aligner_init float_of_str fs NativeMatrix substitution_matrices).
Abbreviation Aligner_align := (Aligner_align NativeMatrix engine_align).
Abbreviation Aligner_aligns := (Aligner_aligns NativeMatrix engine_align).

Lemma configure_Ok scope go ge (m : matrix_obj NativeMatrix) a :
  configure NativeMatrix scope go ge m = Ok a ->
  exists total,
    add go ge = Ok total
    /\ a = {| _aligner := {| mode := scope; open_gap_score := neg total;
                             extend_gap_score := neg ge;
                             substitution_matrix := m |} |}.
Proof.
  unfold configure. destruct (add go ge) as [total|e]; simpl; [|discriminate].
  intros [= <-]. eauto.
Qed.

Lemma configure_Raise scope go ge (m : matrix_obj NativeMatrix) e :
  configure NativeMatrix scope go ge m = Raise e -> e = OverflowError.
Proof.
  unfold configure, add, float_of_int.
  destruct go as [x|f], ge as [y|g]; simpl; try discriminate.
  - destruct (PrimFloat.is_infinity (nearest_float x)); simpl; [congruence | discriminate].
  - destruct (PrimFloat.is_infinity (nearest_float y)); simpl; [congruence | discriminate].
Qed.

(** Whichever way the matrix was obtained, an aligner that comes out of
    the constructor was configured from the arguments. *)
Lemma Aligner_init_Ok scope go ge mf matrix a :
  (Aligner_init scope go ge mf matrix).2 = Ok a ->
  exists m, configure NativeMatrix scope go ge m = Ok a.
Proof.
  unfold PairAlign.Aligner_init. destruct matrix as [m|]; simpl; [eauto|].
  destruct (truthy mf); simpl; [|discriminate].
  destruct substitution_matrices as [read|]; simpl.
  - destruct (read mf) as [m|tag]; simpl; [eauto | discriminate].
  - destruct (substitution_matrix_loader float_of_str fs mf) as [m|e]; simpl;
      [eauto | discriminate].
Qed.

(** C1: for non-negative [gap_open] and [gap_extend], the aligner the
    constructor returns has [open_gap_score = -(gap_open + gap_extend)]
    and [extend_gap_score = -gap_extend]. *)
Theorem Aligner_gap_scores scope go ge mf matrix a :
  nonneg go = true -> nonneg ge = true ->
  (Aligner_init scope go ge mf matrix).2 = Ok a ->
  exists total,
    add go ge = Ok total
    /\ open_gap_score _ (_aligner _ a) = neg total
    /\ extend_gap_score _ (_aligner _ a) = neg ge.
Proof.
  intros _ _ Hinit. apply Aligner_init_Ok in Hinit as [m Hm].
  apply configure_Ok in Hm as (total & Hadd & ->). exists total. auto.
Qed.

(** With a matrix passed and penalties whose sum is a number, the
    constructor does return. *)
Lemma Aligner_init_returns scope go ge mf m total :
  add go ge = Ok total ->
  exists a, (Aligner_init scope go ge mf (Some m)).2 = Ok a.
Proof.
  intros Hadd. unfold PairAlign.Aligner_init, configure. simpl. rewrite Hadd.
  simpl. eauto.
Qed.

(** C6: with no matrix passed (and a [matrix_file] to load), the
    constructor calls the fallback parser exactly when
    [substitution_matrices] is unavailable, the native loader otherwise,
    and configures the engine with what that call returns. *)
Theorem matrix_loader_choice scope go ge mf :
  truthy mf = true ->
  ((Aligner_init scope go ge mf None).1 = [CallShim mf]
     <-> substitution_matrices = None)
  /\ ((Aligner_init scope go ge mf None).1 = [CallNative mf]
        <-> substitution_matrices <> None)
  /\ (substitution_matrices = None ->
      (Aligner_init scope go ge mf None).2 =
        (m ← substitution_matrix_loader float_of_str fs mf;
         configure NativeMatrix scope go ge (DictMatrix _ m)))
  /\ (forall read, substitution_matrices = Some read ->
      (Aligner_init scope go ge mf None).2 =
        (m ← from_library (read mf);
         configure NativeMatrix scope go ge (ArrayMatrix _ m))).
Proof.
  intros Hmf. unfold PairAlign.Aligner_init. rewrite Hmf. simpl.
  destruct substitution_matrices as [read|]; simpl.
  - repeat split; try discriminate; try congruence.
  - repeat split; try discriminate; try congruence.
Qed.

Lemma loader_step_exn st n raw e :
  loader_step float_of_str st n raw = Raise e -> from_loader e.
Proof.
  unfold loader_step. destruct (startswith _ _); [discriminate|].
  destruct (x_bases st); [|discriminate].
  destruct (split (strip raw)) as [|y strs]; [intros [= <-]; exact I|].
  destruct (comprehension (pyfloat float_of_str) strs) as [scores|e'] eqn:Hc; simpl.
  - destruct (negb _); [intros [= <-]; exact I | discriminate].
  - intros [= <-]. apply comprehension_Raise in Hc as (s & _ & Hs).
    unfold pyfloat in Hs. destruct (float_of_str s); [discriminate|].
    injection Hs as <-. exact I.
Qed.

Lemma loader_loop_exn st lines e :
  loader_loop float_of_str st lines = Raise e -> from_loader e.
Proof.
  revert st. induction lines as [|[n raw] lines IH]; intros st; simpl; [discriminate|].
  destruct (loader_step float_of_str st n raw) as [st'|e'] eqn:Hstep; simpl.
  - apply IH.
  - intros [= <-]. eapply loader_step_exn, Hstep.
Qed.

Lemma substitution_matrix_loader_exn mf e :
  substitution_matrix_loader float_of_str fs mf = Raise e -> from_loader e.
Proof.
  unfold substitution_matrix_loader, load_lines. destruct mf as [|s|p].
  - intros [= <-]. exact I.
  - intros [= <-]. exact I.
  - destruct (fs p) as [lines|]; [|intros [= <-]; exact I].
    destruct (loader_loop float_of_str _ _) as [st|e'] eqn:Hloop; simpl; [discriminate|].
    intros [= <-]. eapply loader_loop_exn, Hloop.
Qed.

(** C9: the constructor raises a RuntimeError exactly when [matrix] is
    [None] and [matrix_file] is falsy ([None] or the empty string); with a
    matrix or a non-empty [matrix_file] it never does. *)
Theorem runtime_error_iff scope go ge mf matrix :
  ((exists msg, (Aligner_init scope go ge mf matrix).2 = Raise (RuntimeError msg))
     <-> matrix = None /\ (mf = NoneArg \/ mf = StrArg ""))
  /\ (matrix <> None \/ truthy mf = true ->
      forall msg, (Aligner_init scope go ge mf matrix).2 <> Raise (RuntimeError msg)).
Proof.
  assert (forall m msg,
            configure NativeMatrix scope go ge m <> Raise (RuntimeError msg)) as Hconf.
  { intros m msg Hm. apply configure_Raise in Hm. discriminate. }
  assert (truthy mf = true ->
          forall msg, (Aligner_init scope go ge mf None).2 <> Raise (RuntimeError msg))
    as Hload.
  { intros Hmf msg. unfold PairAlign.Aligner_init. rewrite Hmf. simpl.
    destruct substitution_matrices as [read|]; simpl.
    - destruct (read mf) as [m|tag]; simpl; [apply Hconf | discriminate].
    - destruct (substitution_matrix_loader float_of_str fs mf) as [m|e] eqn:Hm; simpl;
        [apply Hconf|].
      intros [= ->]. apply substitution_matrix_loader_exn in Hm. exact Hm. }
  assert (truthy mf = false <-> mf = NoneArg \/ mf = StrArg "") as Hfalsy.
  { destruct mf as [|s|p]; simpl.
    - tauto.
    - rewrite negb_false_iff, String.eqb_eq. split; [intros ->; tauto|].
      intros [|[=]]; [discriminate | assumption].
    - split; [discriminate | intros [|]; discriminate]. }
  split; [split|].
  - intros [msg Hraise]. destruct matrix as [m|].
    + exfalso. exact (Hconf m msg Hraise).
    + split; [reflexivity|]. apply Hfalsy.
      destruct (truthy mf) eqn:Hmf; [|reflexivity].
      exfalso. exact (Hload eq_refl msg Hraise).
  - intros [-> Hmf]. apply Hfalsy in Hmf. unfold PairAlign.Aligner_init.
    rewrite Hmf. simpl. eauto.
  - intros [Hm|Hmf] msg.
    + destruct matrix as [m|]; [apply Hconf | congruence].
    + destruct matrix as [m|]; [apply Hconf | apply Hload, Hmf].
Qed.

(** The wrapper of an alignment that prints as three lines holds the
    three lines and the score. *)
Lemma Alignment_init_three alignment :
  length (printed_lines alignment) = 3 ->
  exists a,
    Alignment_init alignment = Ok a
    /\ printed_lines alignment = [target a; matches_str a; query a]
    /\ score a = engine_score alignment.
Proof.
  unfold Alignment_init.
  destruct (printed_lines alignment) as [|t [|m [|q [|x l]]]]; try discriminate.
  intros _. eexists. split; [reflexivity|]. split; reflexivity.
Qed.

(** An alignment that does not print as three lines has no wrapper: the
    unpacking of line 126 raises. *)
Lemma Alignment_init_not_three alignment :
  length (printed_lines alignment) <> 3 ->
  Alignment_init alignment
  = Raise (ValueError (WrongLineCount (length (printed_lines alignment)))).
Proof.
  unfold Alignment_init.
  destruct (printed_lines alignment) as [|t [|m [|q [|x l]]]]; try reflexivity.
  intros Hlen. destruct Hlen. reflexivity.
Qed.

(** The generator gives a wrapper for each alignment of a run of
    alignments that print as three lines, and goes on with the rest. *)
Lemma wrap_each_app good rest :
  Forall (fun aln => length (printed_lines aln) = 3) good ->
  exists wrappers,
    wrap_each (good ++ rest) = ((Ok <$> wrappers) ++ wrap_each rest)%list
    /\ Forall2 (fun aln a =>
                  printed_lines aln = [target a; matches_str a; query a]
                  /\ score a = engine_score aln) good wrappers.
Proof.
  induction 1 as [|aln good Haln _ (wrappers & Heq & Hall)].
  - exists []. split; [reflexivity | constructor].
  - destruct (Alignment_init_three aln Haln) as (a & Ha & Hlines & Hscore).
    exists (a :: wrappers). split.
    + simpl. rewrite Ha, Heq. reflexivity.
    + constructor; [split; assumption | exact Hall].
Qed.

(** C8, as amended: [align] returns a wrapper of the engine's first
    alignment, holding its three printed lines and its score, when the
    engine returns at least one alignment and the first prints as exactly
    three lines, and [None] when the engine returns none; [aligns] yields
    such a wrapper for each alignment of the engine as long as each
    prints as exactly three lines.  An alignment that does not print as
    three lines has no wrapper: [align] raises the ValueError of the
    unpacking, and the generator of [aligns] ends with it. *)
Theorem align_result self seq1 seq2 :
  (forall first rest t m q,
      engine_align (_aligner _ self) seq1 seq2 = inl (first :: rest) ->
      printed_lines first = [t; m; q] ->
      Aligner_align self seq1 seq2
      = Ok (Some {| target := t; matches_str := m; query := q;
                    score := engine_score first |}))
  /\ (engine_align (_aligner _ self) seq1 seq2 = inl [] ->
      Aligner_align self seq1 seq2 = Ok None)
  /\ (forall first rest,
      engine_align (_aligner _ self) seq1 seq2 = inl (first :: rest) ->
      length (printed_lines first) <> 3 ->
      Aligner_align self seq1 seq2
      = Raise (ValueError (WrongLineCount (length (printed_lines first)))))
  /\ (forall alignments,
      engine_align (_aligner _ self) seq1 seq2 = inl alignments ->
      Forall (fun aln => length (printed_lines aln) = 3) alignments ->
      exists wrappers,
        Aligner_aligns self seq1 seq2 = Ok (Ok <$> wrappers)
        /\ Forall2 (fun aln a =>
                      printed_lines aln = [target a; matches_str a; query a]
                      /\ score a = engine_score aln) alignments wrappers)
  /\ (forall good bad rest,
      engine_align (_aligner _ self) seq1 seq2 = inl (good ++ bad :: rest)%list ->
      Forall (fun aln => length (printed_lines aln) = 3) good ->
      length (printed_lines bad) <> 3 ->
      exists wrappers,
        Aligner_aligns self seq1 seq2
        = Ok ((Ok <$> wrappers)
              ++ [Raise (ValueError (WrongLineCount (length (printed_lines bad))))])%list
        /\ Forall2 (fun aln a =>
                      printed_lines aln = [target a; matches_str a; query a]
                      /\ score a = engine_score aln) good wrappers).
Proof.
  unfold PairAlign.Aligner_align, PairAlign.Aligner_aligns.
  split; [|split; [|split; [|split]]].
  - intros first rest t m q -> Hlines. simpl.
    unfold Alignment_init. rewrite Hlines. reflexivity.
  - intros ->. reflexivity.
  - intros first rest -> Hlen. simpl.
    rewrite Alignment_init_not_three by assumption. reflexivity.
  - intros alignments -> Hall. simpl.
    destruct (wrap_each_app alignments [] Hall) as (wrappers & Heq & Hwrap).
    exists wrappers. rewrite !app_nil_r in Heq. rewrite Heq. auto.
  - intros good bad rest -> Hgood Hbad. simpl.
    destruct (wrap_each_app good (bad :: rest) Hgood) as (wrappers & Heq & Hwrap).
    exists wrappers. rewrite Heq. cbn [wrap_each].
    rewrite Alignment_init_not_three by assumption. auto.
Qed.

End AlignerClaims.

(** ** The claims on sample inputs *)

(** C1 at the defaults [gap_open = 0], [gap_extend = 2.5]: both scores
    are -2.5. *)
Lemma Aligner_gap_scores_witness :
  nonneg (PyInt 0) = true /\ nonneg (PyFloat 2.5) = true
  /\ default_init.2 = Ok default_aligner
  /\ exists total,
       add (PyInt 0) (PyFloat 2.5) = Ok total
       /\ open_gap_score _ (_aligner _ default_aligner) = neg total
       /\ extend_gap_score _ (_aligner _ default_aligner) = neg (PyFloat 2.5).
Proof.
  assert (default_init.2 = Ok default_aligner) as Hinit by (vm_compute; reflexivity).
  split; [reflexivity|]. split; [reflexivity|]. split; [exact Hinit|].
  exact (Aligner_gap_scores sample_float sample_fs unit None
           "local" (PyInt 0) (PyFloat 2.5) (PathArg "sub-matrix.txt") None
           default_aligner eq_refl eq_refl Hinit).
Defined.

Example default_scores :
  open_gap_score _ (_aligner _ default_aligner) = PyFloat (-2.5)
  /\ extend_gap_score _ (_aligner _ default_aligner) = PyFloat (-2.5).
Proof. split; vm_compute; reflexivity. Qed.

(** C2 fails when a symbol is repeated: a header of two columns and one
    data row give one entry, not two. *)
Lemma repeated_symbol_entry_count :
  sample_fs "repeated.txt" = Some ["A A"; "A 1 2"]
  /\ well_formed sample_float ["A A"; "A 1 2"] = true
  /\ header ["A A"; "A 1 2"] = Some ["A"; "A"]
  /\ length (data_rows ["A A"; "A 1 2"]) = 1
  /\ exists m,
       substitution_matrix_loader sample_float sample_fs (PathArg "repeated.txt") = Ok m
       /\ size m = 1 /\ size m <> 2 * 1.
Proof.
  repeat split; try reflexivity.
  eexists. split; [vm_compute; reflexivity|]. split; [vm_compute; reflexivity|].
  vm_compute. discriminate.
Qed.

(** C2, as amended, on the DNA matrix: 4 columns and 4 rows, 16 entries. *)
Lemma loader_entry_count_witness :
  sample_fs "sub-matrix.txt" = Some dna_matrix_lines
  /\ well_formed sample_float dna_matrix_lines = true
  /\ header dna_matrix_lines = Some ["A"; "C"; "G"; "T"]
  /\ NoDup ["A"; "C"; "G"; "T"]
  /\ NoDup (row_symbols dna_matrix_lines)
  /\ exists m,
       substitution_matrix_loader sample_float sample_fs (PathArg "sub-matrix.txt") = Ok m
       /\ size m = 4 * 4.
Proof.
  assert (NoDup ["A"; "C"; "G"; "T"]) as Hnd
    by (refine (bool_decide_unpack _ _); vm_compute; exact I).
  assert (well_formed sample_float dna_matrix_lines = true) as Hwf
    by (vm_compute; reflexivity).
  assert (header dna_matrix_lines = Some ["A"; "C"; "G"; "T"]) as Hh
    by (vm_compute; reflexivity).
  assert (NoDup (row_symbols dna_matrix_lines)) as Hrows
    by (refine (bool_decide_unpack _ _); vm_compute; exact I).
  repeat (split; [first [reflexivity | assumption]|]).
  exact (loader_entry_count sample_float sample_fs "sub-matrix.txt" dna_matrix_lines
           ["A"; "C"; "G"; "T"] eq_refl Hwf Hh Hnd Hrows).
Defined.

(** C3 fails in both directions once a score is not a number: the
    loader raises although every row has one score per column, and a row
    with a score too many goes unreported behind a bad number. *)
Lemma bad_number_hides_mismatch :
  (substitution_matrix_loader sample_float sample_fs (PathArg "not-a-number.txt")
     = Raise (ValueError (BadFloat "foo"))
   /\ has_mismatch ["A"; "x foo"] = false)
  /\ (substitution_matrix_loader sample_float sample_fs (PathArg "late-mismatch.txt")
        = Raise (ValueError (BadFloat "foo"))
      /\ has_mismatch ["A"; "x foo"; "y 1 2"] = true).
Proof. repeat split; vm_compute; reflexivity. Qed.

(** C3, as amended, on a file whose third line is one score short. *)
Lemma loader_raises_iff_mismatch_witness :
  sample_fs "short-row.txt" = Some ["A C"; "A 1 2"; "C 3"]
  /\ all_tokens_ok sample_float ["A C"; "A 1 2"; "C 3"] = true
  /\ ((exists e, substitution_matrix_loader sample_float sample_fs
                   (PathArg "short-row.txt") = Raise e)
      <-> has_mismatch ["A C"; "A 1 2"; "C 3"] = true)
  /\ (forall e,
      substitution_matrix_loader sample_float sample_fs (PathArg "short-row.txt")
        = Raise e ->
      exists xb pre n raw post,
        header ["A C"; "A 1 2"; "C 3"] = Some xb
        /\ data_rows ["A C"; "A 1 2"; "C 3"] = (pre ++ (n, raw) :: post)%list
        /\ Forall (fun item => count_ok xb item.2 = true) pre
        /\ count_ok xb raw = false
        /\ e = ValueError (CountMismatch n (length (score_strs raw)) (length xb))).
Proof.
  assert (all_tokens_ok sample_float ["A C"; "A 1 2"; "C 3"] = true) as Htok
    by (vm_compute; reflexivity).
  split; [reflexivity|]. split; [exact Htok|].
  exact (loader_raises_iff_mismatch sample_float sample_fs "short-row.txt"
           ["A C"; "A 1 2"; "C 3"] eq_refl Htok).
Defined.

Example short_row_error :
  substitution_matrix_loader sample_float sample_fs (PathArg "short-row.txt")
  = Raise (ValueError (CountMismatch 3 1 2)).
Proof. vm_compute. reflexivity. Qed.

(** C4 fails when a symbol is repeated: the key (A, A) holds the score
    under the second column A, not the one at index 0. *)
Lemma repeated_symbol_entry_value :
  sample_fs "repeated.txt" = Some ["A A"; "A 1 2"]
  /\ well_formed sample_float ["A A"; "A 1 2"] = true
  /\ header ["A A"; "A 1 2"] = Some ["A"; "A"]
  /\ data_rows ["A A"; "A 1 2"] = [(2, "A 1 2")]
  /\ row_symbol "A 1 2" = Some "A"
  /\ ["A"; "A"] !! 0 = Some "A"
  /\ score_strs "A 1 2" !! 0 = Some "1"
  /\ exists m,
       substitution_matrix_loader sample_float sample_fs (PathArg "repeated.txt") = Ok m
       /\ m !! ("A", "A") = sample_float "2"
       /\ m !! ("A", "A") <> sample_float "1".
Proof.
  repeat (split; [reflexivity|]).
  eexists. split; [vm_compute; reflexivity|]. split; [vm_compute; reflexivity|].
  vm_compute. intros [=].
Qed.

(** C4, as amended, on the DNA matrix: the key (C, A) holds the score at
    index 1 of the row of A. *)
Lemma loader_entry_value_witness :
  sample_fs "sub-matrix.txt" = Some dna_matrix_lines
  /\ well_formed sample_float dna_matrix_lines = true
  /\ header dna_matrix_lines = Some ["A"; "C"; "G"; "T"]
  /\ NoDup ["A"; "C"; "G"; "T"]
  /\ NoDup (row_symbols dna_matrix_lines)
  /\ (3, "A  1 -1 -1 -1" ++ newline) ∈ data_rows dna_matrix_lines
  /\ row_symbol ("A  1 -1 -1 -1" ++ newline) = Some "A"
  /\ ["A"; "C"; "G"; "T"] !! 1 = Some "C"
  /\ score_strs ("A  1 -1 -1 -1" ++ newline) !! 1 = Some "-1"
  /\ exists m v,
       substitution_matrix_loader sample_float sample_fs (PathArg "sub-matrix.txt") = Ok m
       /\ sample_float "-1" = Some v
       /\ m !! ("C", "A") = Some v.
Proof.
  assert (NoDup ["A"; "C"; "G"; "T"]) as Hnd
    by (refine (bool_decide_unpack _ _); vm_compute; exact I).
  assert (well_formed sample_float dna_matrix_lines = true) as Hwf
    by (vm_compute; reflexivity).
  assert (header dna_matrix_lines = Some ["A"; "C"; "G"; "T"]) as Hh
    by (vm_compute; reflexivity).
  assert (NoDup (row_symbols dna_matrix_lines)) as Hrows
    by (refine (bool_decide_unpack _ _); vm_compute; exact I).
  assert ((3, "A  1 -1 -1 -1" ++ newline) ∈ data_rows dna_matrix_lines) as Hin
    by (refine (bool_decide_unpack _ _); vm_compute; exact I).
  repeat (split; [first [reflexivity | assumption]|]).
  exact (loader_entry_value sample_float sample_fs "sub-matrix.txt" dna_matrix_lines
           ["A"; "C"; "G"; "T"] 3 ("A  1 -1 -1 -1" ++ newline) "A" 1 "C" "-1"
           eq_refl Hwf Hh Hnd Hrows Hin eq_refl eq_refl eq_refl).
Defined.

(** C5 on the DNA matrix, which has a comment before the header and one
    among the rows. *)
Lemma loader_comments_and_header_witness :
  sample_fs "sub-matrix.txt" = Some dna_matrix_lines
  /\ header dna_matrix_lines = Some ["A"; "C"; "G"; "T"]
  /\ forall m c r v,
       substitution_matrix_loader sample_float sample_fs (PathArg "sub-matrix.txt") = Ok m ->
       m !! (c, r) = Some v ->
       exists xb n raw i s,
         header dna_matrix_lines = Some xb
         /\ (n, raw) ∈ data_rows dna_matrix_lines /\ is_comment raw = false
         /\ row_symbol raw = Some r
         /\ xb !! i = Some c /\ score_strs raw !! i = Some s
         /\ sample_float s = Some v.
Proof.
  split; [reflexivity|]. split; [vm_compute; reflexivity|].
  apply (loader_comments_and_header sample_float sample_fs "sub-matrix.txt"
           dna_matrix_lines eq_refl).
Defined.

(** C6 for the default matrix file, without and with the native loader. *)
Lemma matrix_loader_choice_witness :
  truthy (PathArg "sub-matrix.txt") = true
  /\ (Aligner_init sample_float sample_fs unit None
        "local" (PyInt 0) (PyFloat 2.5) (PathArg "sub-matrix.txt") None).1
     = [CallShim (PathArg "sub-matrix.txt")]
  /\ (Aligner_init sample_float sample_fs unit (Some (fun _ => inl tt))
        "local" (PyInt 0) (PyFloat 2.5) (PathArg "sub-matrix.txt") None).1
     = [CallNative (PathArg "sub-matrix.txt")].
Proof.
  split; [reflexivity|]. split.
  - apply (matrix_loader_choice sample_float sample_fs unit None
             "local" (PyInt 0) (PyFloat 2.5) (PathArg "sub-matrix.txt") eq_refl).
    reflexivity.
  - apply (matrix_loader_choice sample_float sample_fs unit (Some (fun _ => inl tt))
             "local" (PyInt 0) (PyFloat 2.5) (PathArg "sub-matrix.txt") eq_refl).
    discriminate.
Defined.

(** An engine with three alignments, the second printed as four lines:
    [align] wraps the first, [aligns] yields its wrapper and then raises;
    an engine whose first alignment prints as four lines makes [align]
    raise. *)
Lemma align_result_witness :
  Aligner_align unit MoreSamples.three_alignments default_aligner "ACGT" "ACGT"
  = Ok (Some MoreSamples.acgt_wrapper)
  /\ Aligner_align unit MoreSamples.wrapped_first default_aligner "ACGT" "ACGT"
     = Raise (ValueError (WrongLineCount 4))
  /\ exists wrappers,
       Aligner_aligns unit MoreSamples.three_alignments default_aligner "ACGT" "ACGT"
       = Ok ((Ok <$> wrappers) ++ [Raise (ValueError (WrongLineCount 4))])%list
       /\ Forall2 (fun aln a =>
                     printed_lines aln = [target a; matches_str a; query a]
                     /\ score a = engine_score aln)
                  [MoreSamples.acgt_alignment] wrappers.
Proof.
  pose proof (align_result unit MoreSamples.three_alignments default_aligner
                "ACGT" "ACGT") as (Hfirst & _ & _ & _ & Hstop).
  pose proof (align_result unit MoreSamples.wrapped_first default_aligner
                "ACGT" "ACGT") as (_ & _ & Hraise & _ & _).
  split; [|split].
  - exact (Hfirst MoreSamples.acgt_alignment _ "ACGT" "||||" "ACGT" eq_refl eq_refl).
  - refine (Hraise MoreSamples.wrapped_alignment _ eq_refl _). discriminate.
  - refine (Hstop [MoreSamples.acgt_alignment] MoreSamples.wrapped_alignment
              [MoreSamples.acgt_alignment] eq_refl _ _).
    + constructor; [reflexivity | constructor].
    + discriminate.
Defined.

(** C8 fails when the engine finds no alignment: [align] returns [None],
    not a wrapper. *)
Lemma align_without_alignment :
  Aligner_align unit no_alignments default_aligner "A" "T" = Ok None
  /\ ~ exists a, Aligner_align unit no_alignments default_aligner "A" "T" = Ok (Some a).
Proof.
  split; [reflexivity|]. intros [a Ha]. discriminate Ha.
Qed.

End PairAlignFacts.

(** * Properties of [tests/run.py] *)

Module RunFacts.
Import Py Run.

Lemma contains_false {V} (d : gmap string V) name :
  contains d name = false <-> d !! name = None.
Proof.
  unfold contains. rewrite bool_decide_eq_false, <- eq_None_not_Some. reflexivity.
Qed.

(** The loop of [get_objects_diff] over items with pairwise distinct
    names keeps exactly the items that pass its test. *)
Lemma diff_loop_lookup (before : gmap string pyobj) ty (items : list (string * pyobj))
    name obj :
  NoDup items.*1 ->
  foldl (fun (diff : gmap string pyobj) item =>
           if negb (contains before item.1) && isinstance item.2 ty
           then <[item.1 := item.2]> diff else diff) ∅ items !! name = Some obj
  <-> (name, obj) ∈ items /\ before !! name = None /\ isinstance obj ty = true.
Proof.
  induction items as [|[k v] items IH] using rev_ind; intros Hnd.
  - simpl. rewrite lookup_empty. split; [discriminate|].
    intros [Hin _]. apply elem_of_nil in Hin. destruct Hin.
  - rewrite fmap_app in Hnd. apply NoDup_app in Hnd as (Hnd & Hdisj & _).
    specialize (IH Hnd). rewrite foldl_app. cbn [foldl fst snd].
    assert (forall o, (k, o) ∉ items) as Hfresh.
    { intros o Hin. apply (Hdisj k).
      - apply list_elem_of_fmap. exists (k, o). auto.
      - simpl. apply list_elem_of_singleton. reflexivity. }
    rewrite elem_of_app, list_elem_of_singleton.
    destruct (negb (contains before k) && isinstance v ty) eqn:Hcond.
    + apply andb_true_iff in Hcond as [Hb Hi].
      apply negb_true_iff, contains_false in Hb.
      destruct (decide (k = name)) as [->|Hne].
      * rewrite lookup_insert_eq. split.
        -- intros [= ->]. auto.
        -- intros [[Hin|[= ->]] _]; [destruct (Hfresh _ Hin) | reflexivity].
      * rewrite lookup_insert_ne by assumption. rewrite IH. split.
        -- intros (Hin & Hrest). auto.
        -- intros [[Hin|[= <- _]] Hrest]; [auto | congruence].
    + rewrite IH. split.
      * intros (Hin & Hrest). auto.
      * intros [[Hin|[= -> ->]] [Hb Hi]]; [auto|]. exfalso.
        apply contains_false in Hb. rewrite Hb, Hi in Hcond. discriminate.
Qed.

Lemma get_objects_diff_lookup before after ty name obj :
  get_objects_diff before after ty !! name = Some obj
  <-> after !! name = Some obj /\ before !! name = None /\ isinstance obj ty = true.
Proof.
  unfold get_objects_diff. rewrite diff_loop_lookup by apply NoDup_fst_map_to_list.
  rewrite elem_of_map_to_list. reflexivity.
Qed.

Lemma isinstance_function obj :
  isinstance obj FunctionType = true <-> type_of obj = FunctionType.
Proof.
  unfold isinstance. rewrite orb_true_iff, !bool_decide_eq_true.
  split; [intros [|]; [discriminate | assumption] | auto].
Qed.

Section HarnessClaims.

Variable run_as_script : bool.
Variable test_raises : pyobj -> string -> option exn.
Variables GlobalsInitial GlobalsAfterMeta GlobalsAfterActive GlobalsAfterInactive
  : gmap string pyobj.

Abbreviation meta_tests := (meta_tests GlobalsInitial GlobalsAfterMeta).
Abbreviation active_tests := (active_tests GlobalsAfterMeta GlobalsAfterActive).
Abbreviation inactive_tests := (inactive_tests GlobalsAfterActive GlobalsAfterInactive).
Abbreviation all_tests :=
  (all_tests GlobalsInitial GlobalsAfterMeta GlobalsAfterActive GlobalsAfterInactive).
Abbreviation main :=
  (main run_as_script test_raises
        GlobalsInitial GlobalsAfterMeta GlobalsAfterActive GlobalsAfterInactive).

(** C7, as amended: [get_objects_diff(before, after)] returns precisely
    the pairs (name, object) where the name is in [after] but not in
    [before] and the object is a function; the active and the inactive
    suites are these diffs between consecutive markers, and the meta suite
    is the diff between the first two markers together with the three
    entries 'all', 'active' and 'inactive' that [main] adds. *)
Theorem suites_from_markers :
  (forall before after name obj,
      get_objects_diff before after FunctionType !! name = Some obj
      <-> after !! name = Some obj /\ before !! name = None
          /\ type_of obj = FunctionType)
  /\ active_tests = get_objects_diff GlobalsAfterMeta GlobalsAfterActive FunctionType
  /\ inactive_tests
     = get_objects_diff GlobalsAfterActive GlobalsAfterInactive FunctionType
  /\ (forall name obj,
      meta_tests !! name = Some obj
      <-> (name = "inactive" /\ obj = Lambda InactiveTests)
          \/ (name = "active" /\ obj = Lambda ActiveTests)
          \/ (name = "all" /\ obj = Lambda SimpleTests)
          \/ (name <> "inactive" /\ name <> "active" /\ name <> "all"
              /\ get_objects_diff GlobalsInitial GlobalsAfterMeta FunctionType !! name
                 = Some obj)).
Proof.
  split; [|split; [reflexivity | split; [reflexivity|]]].
  - intros before after name obj.
    rewrite get_objects_diff_lookup, isinstance_function. reflexivity.
  - intros name obj. unfold Run.meta_tests.
    destruct (decide (name = "inactive")) as [->|Hi].
    { rewrite lookup_insert_eq. split.
      - intros [= <-]. auto.
      - intros [[_ ->]|[[[=] _]|[[[=] _]|[[] _]]]]; reflexivity. }
    rewrite lookup_insert_ne by congruence.
    destruct (decide (name = "active")) as [->|Ha].
    { rewrite lookup_insert_eq. split.
      - intros [= <-]. auto.
      - intros [[[=] _]|[[_ ->]|[[[=] _]|(_ & [] & _)]]]; reflexivity. }
    rewrite lookup_insert_ne by congruence.
    destruct (decide (name = "all")) as [->|Hall].
    { rewrite lookup_insert_eq. split.
      - intros [= <-]. auto.
      - intros [[[=] _]|[[[=] _]|[[_ ->]|(_ & _ & [] & _)]]]; reflexivity. }
    rewrite lookup_insert_ne by congruence. split.
    + intros Hd. right. right. right. auto.
    + intros [[-> _]|[[-> _]|[[-> _]|(_ & _ & _ & Hd)]]]; congruence.
Qed.

(** C10: when a requested test name is not a registered test, [main] logs
    the error and fails; no test function has been called. *)
Theorem unknown_test_runs_nothing tests log :
  (exists test_name, test_name ∈ tests /\ all_tests !! test_name = None) ->
  exists msg e,
    main tests log = ((log ++ [LogCritical msg])%list, Raise e)
    /\ (e = SystemExit 1 \/ e = Exception "Unrecoverable error")
    /\ forall test_fxn name, Invoke test_fxn name ∉ [LogCritical msg].
Proof.
  intros (t & Hin & Hunknown). unfold Run.main.
  rewrite bool_decide_eq_false_2
    by (intros ->; apply elem_of_nil in Hin; destruct Hin).
  rewrite bool_decide_eq_false_2.
  2:{ intros Hnil.
      assert (t ∈ filter (fun test_name => contains all_tests test_name = false) tests)
        as Ht by (apply list_elem_of_filter; split; [apply contains_false|]; assumption).
      rewrite Hnil in Ht. apply elem_of_nil in Ht. destruct Ht. }
  eexists. unfold fail, mbind, M_bind, emit, raise.
  destruct run_as_script; eexists; (split; [reflexivity|]); (split; [auto|]);
    intros f n Hbad; apply list_elem_of_singleton in Hbad; discriminate.
Qed.

End HarnessClaims.

(** C7 fails for the meta suite: in the module as it stands no function
    is defined between the first two markers, yet the suite has the
    entry 'all'. *)
Lemma meta_suite_has_group_runners :
  meta_tests module_GlobalsInitial module_GlobalsAfterMeta !! "all"
    = Some (Lambda SimpleTests)
  /\ module_GlobalsAfterMeta !! "all" = None
  /\ get_objects_diff module_GlobalsInitial module_GlobalsAfterMeta FunctionType !! "all"
     = None.
Proof. repeat split; vm_compute; reflexivity. Qed.

(** C10 on the module as it stands, asked for a test it has and one it
    has not. *)
Lemma unknown_test_runs_nothing_witness :
  (exists test_name,
      test_name ∈ ["trimmer"; "bogus"]
      /\ all_tests module_GlobalsInitial module_GlobalsAfterMeta
           module_GlobalsAfterActive module_GlobalsAfterInactive !! test_name = None)
  /\ exists msg e,
       main true (fun _ _ => None)
         module_GlobalsInitial module_GlobalsAfterMeta
         module_GlobalsAfterActive module_GlobalsAfterInactive
         ["trimmer"; "bogus"] []
       = (([] ++ [LogCritical msg])%list, Raise e)
       /\ (e = SystemExit 1 \/ e = Exception "Unrecoverable error")
       /\ forall test_fxn name, Invoke test_fxn name ∉ [LogCritical msg].
Proof.
  assert (exists test_name,
      test_name ∈ ["trimmer"; "bogus"]
      /\ all_tests module_GlobalsInitial module_GlobalsAfterMeta
           module_GlobalsAfterActive module_GlobalsAfterInactive !! test_name = None)
    as Hunknown.
  { exists "bogus". split; [right; left | vm_compute; reflexivity]. }
  split; [exact Hunknown|].
  exact (unknown_test_runs_nothing true (fun _ _ => None)
           module_GlobalsInitial module_GlobalsAfterMeta
           module_GlobalsAfterActive module_GlobalsAfterInactive
           ["trimmer"; "bogus"] [] Hunknown).
Defined.

Example known_tests_run :
  main true (fun _ _ => None)
    module_GlobalsInitial module_GlobalsAfterMeta
    module_GlobalsAfterActive module_GlobalsAfterInactive
    ["trimmer"; "get_context"] []
  = ([Invoke (Function "trimmer") "trimmer";
      Invoke (Function "get_context") "get_context"], Ok None).
Proof. vm_compute. reflexivity. Qed.

End RunFacts.

(** * More on the loader *)

Module LoaderExtra.
Import Py PairAlign PairAlignFacts.

(** ** Assignments, continued *)

Section MoreAssignments.

Context {K : Type} `{Countable K} {V : Type}.

(** A key that is not assigned keeps what it held. *)
Lemma foldl_assign_lookup_None (m : gmap K V) kvs k :
  k ∉ kvs.*1 -> foldl assign m kvs !! k = m !! k.
Proof.
  induction kvs as [|[k' v'] kvs IH] using rev_ind; intros Hk; [reflexivity|].
  rewrite foldl_assign_snoc. simpl. rewrite fmap_app in Hk.
  rewrite lookup_insert_ne.
  - apply IH. intros Hin. apply Hk, elem_of_app. left. assumption.
  - intros ->. apply Hk, elem_of_app. right. simpl. left.
Qed.

(** The last assignment to a key is the one that counts. *)
Lemma foldl_assign_lookup_last (m : gmap K V) pre k v post :
  k ∉ post.*1 -> foldl assign m (pre ++ (k, v) :: post) !! k = Some v.
Proof.
  intros Hk. rewrite foldl_app. cbn [foldl].
  rewrite foldl_assign_lookup_None by assumption.
  unfold assign. simpl. apply lookup_insert_eq.
Qed.

(** There are never more entries than assignments. *)
Lemma foldl_assign_size_le (kvs : list (K * V)) :
  size (foldl assign (∅ : gmap K V) kvs) <= length kvs.
Proof.
  induction kvs as [|kv kvs IH] using rev_ind.
  - simpl. rewrite map_size_empty. lia.
  - rewrite foldl_assign_snoc, length_app, map_size_insert. simpl.
    destruct (foldl assign ∅ kvs !! kv.1); simpl; lia.
Qed.

End MoreAssignments.

(** ** Line numbers *)

Lemma elem_of_enumerate {A} (start : nat) (lines : list A) n x :
  (n, x) ∈ enumerate start lines <-> start <= n /\ lines !! (n - start) = Some x.
Proof.
  revert start. induction lines as [|l lines IH]; intros start; simpl.
  - split; [intros Hin; apply elem_of_nil in Hin; destruct Hin | intros [_ [=]]].
  - rewrite elem_of_cons, IH. split.
    + intros [[= -> ->]|[Hle Hl]].
      * split; [lia|]. replace (start - start) with 0 by lia. reflexivity.
      * split; [lia|]. replace (n - start) with (S (n - S start)) by lia. exact Hl.
    + intros [Hle Hl]. destruct (decide (n = start)) as [->|Hne].
      * left. replace (start - start) with 0 in Hl by lia. simpl in Hl. congruence.
      * right. split; [lia|].
        replace (n - start) with (S (n - S start)) in Hl by lia. exact Hl.
Qed.

Lemma data_rows_lines lines n raw :
  (n, raw) ∈ data_rows lines ->
  1 <= n /\ lines !! (n - 1) = Some raw /\ is_comment raw = false.
Proof.
  intros Hin. pose proof (data_rows_noncomment lines n raw Hin) as Hc.
  unfold data_rows in Hin.
  assert ((n, raw) ∈ noncomment (enumerate 1 lines)) as Hin'.
  { destruct (noncomment (enumerate 1 lines)); [exact Hin | right; exact Hin]. }
  unfold noncomment in Hin'. apply list_elem_of_filter in Hin' as [_ Hin'].
  apply elem_of_enumerate in Hin' as [Hle Hl]. auto.
Qed.

Section LoaderMore.

Variable float_of_str : string -> option float.
Variable fs : string -> option (list string).

Abbreviation loader := (substitution_matrix_loader float_of_str fs).
Abbreviation parse_row := (PairAlign.parse_row float_of_str).

(** The loader on an opened file, by header and rows. *)
Lemma loader_rows p lines xb :
  fs p = Some lines -> header lines = Some xb ->
  loader (PathArg p) =
    (rows ← comprehension (parse_row xb) (data_rows lines);
     Ok (foldl assign ∅ (entries xb rows))).
Proof.
  intros Hfs Hh. unfold substitution_matrix_loader. rewrite Hfs.
  rewrite (load_lines_rows float_of_str lines xb Hh).
  destruct (comprehension _ _); simpl; [rewrite fill_entries|]; reflexivity.
Qed.

(** X1: A file without data rows (an empty file, comments only, or a header
    alone) loads as the empty mapping. *)
Theorem loader_no_rows p lines :
  fs p = Some lines -> data_rows lines = [] -> loader (PathArg p) = Ok ∅.
Proof.
  intros Hfs Hrows. destruct (header lines) as [xb|] eqn:Hh.
  - rewrite (loader_rows p lines xb Hfs Hh), Hrows. reflexivity.
  - unfold substitution_matrix_loader. rewrite Hfs.
    apply load_lines_no_header, Hh.
Qed.

(** X2: A file that loads gives at most one entry per column and data row. *)
Theorem loader_entry_bound p lines xb m :
  fs p = Some lines -> header lines = Some xb ->
  loader (PathArg p) = Ok m ->
  size m <= length xb * length (data_rows lines).
Proof.
  intros Hfs Hh. rewrite (loader_rows p lines xb Hfs Hh).
  destruct (comprehension _ _) as [rows|e] eqn:Hrows; simpl; [|discriminate].
  intros [= <-]. apply comprehension_Forall2 in Hrows.
  etransitivity; [apply foldl_assign_size_le|].
  rewrite entries_length by (eapply parsed_rows_lengths, Hrows).
  rewrite (Forall2_length _ _ _ Hrows). reflexivity.
Qed.

Lemma entries_app xb rows1 rows2 :
  entries xb (rows1 ++ rows2) = (entries xb rows1 ++ entries xb rows2)%list.
Proof. unfold entries. apply bind_app. Qed.

(** X3: When a key is assigned more than once, the loaded matrix holds the
    score of the last data row with that row symbol, under the last
    column with that column symbol. *)
Theorem loader_last_assignment p lines xb m pre n raw post r xpre c xpost s :
  fs p = Some lines -> header lines = Some xb ->
  loader (PathArg p) = Ok m ->
  data_rows lines = (pre ++ (n, raw) :: post)%list ->
  row_symbol raw = Some r ->
  Forall (fun item : nat * string => row_symbol item.2 <> Some r) post ->
  xb = (xpre ++ c :: xpost)%list -> c ∉ xpost ->
  score_strs raw !! length xpre = Some s ->
  exists v, float_of_str s = Some v /\ m !! (c, r) = Some v.
Proof.
  intros Hfs Hh Hload Hsplit Hr Hpost Hxb Hc Hs.
  rewrite (loader_rows p lines xb Hfs Hh) in Hload.
  destruct (comprehension _ _) as [rows|e] eqn:Hrows; simpl in Hload; [|discriminate].
  injection Hload as <-. apply comprehension_Forall2 in Hrows.
  rewrite Hsplit in Hrows.
  apply Forall2_app_inv_l in Hrows as (rows1 & rows2 & _ & Hrows2 & ->).
  inversion Hrows2 as [|? [y scores] ? rows3 Hrow Hrows3]; subst.
  apply parse_row_Ok in Hrow as (Hy & Hscores & _).
  assert (y = r) as -> by congruence.
  destruct (Forall2_lookup_l _ _ _ _ _ Hscores Hs) as (v & Hv & Hsv).
  exists v. split; [assumption|].
  rewrite entries_app, entries_cons. cbn [fst snd].
  rewrite <- (take_drop_middle scores (length xpre) v Hv).
  rewrite zip_with_app
    by (rewrite length_take; apply lookup_lt_Some in Hv; lia).
  cbn [zip_with]. rewrite fmap_app, fmap_cons. cbn [fst snd].
  rewrite <- app_assoc, app_assoc, <- app_comm_cons.
  apply foldl_assign_lookup_last.
  rewrite fmap_app. intros [Hin|Hin]%elem_of_app.
  - apply list_elem_of_fmap in Hin as (kv & Hk & Hin).
    apply list_elem_of_fmap in Hin as ([x f] & -> & Hin). simpl in Hk.
    injection Hk as <-. apply list_elem_of_lookup in Hin as [j Hj].
    apply lookup_zip_with_Some in Hj as (x' & f' & [= <- <-] & Hx & _).
    apply Hc, list_elem_of_lookup. eauto.
  - apply entries_key_row in Hin. simpl in Hin.
    rewrite (parsed_rows_symbols _ _ _ _ Hrows3) in Hin.
    apply list_elem_of_omap in Hin as (item & Hitem & Hsym).
    rewrite Forall_forall in Hpost. exact (Hpost item Hitem Hsym).
Qed.

(** ** The exceptions of a row *)

(** What a row that does not parse raises: nothing to unpack, a score
    that is no number, or a count of scores that is not the header's. *)
Lemma parse_row_Raise xb n raw e :
  parse_row xb (n, raw) = Raise e ->
  (row_symbol raw = None /\ e = ValueError NotEnoughValues)
  \/ (exists s, s ∈ score_strs raw /\ float_of_str s = None
                /\ e = ValueError (BadFloat s))
  \/ (length (score_strs raw) <> length xb
      /\ e = ValueError (CountMismatch n (length (score_strs raw)) (length xb))).
Proof.
  unfold PairAlign.parse_row, row_symbol, score_strs. cbn [fst snd].
  destruct (split (strip raw)) as [|y strs]; simpl.
  - intros [= <-]. auto.
  - destruct (comprehension _ strs) as [scores|e'] eqn:Hc; simpl.
    + apply comprehension_length in Hc.
      destruct (length scores =? length xb)%nat eqn:Hn; simpl; [discriminate|].
      apply Nat.eqb_neq in Hn. intros [= <-]. right. right.
      rewrite <- Hc. auto.
    + intros [= <-]. apply comprehension_Raise in Hc as (s & Hin & Hs).
      right. left. exists s. split; [assumption|].
      destruct (float_of_str s); [discriminate|]. injection Hs as <-. auto.
Qed.

Lemma parse_rows_before xb (pre : list (nat * string)) :
  Forall (fun item => tokens_ok float_of_str item.2 = true
                      /\ count_ok xb item.2 = true) pre ->
  exists rows, comprehension (parse_row xb) pre = Ok rows.
Proof.
  intros Hpre. apply comprehension_total. eapply Forall_impl; [exact Hpre|].
  intros [n raw] [Ht Hc]. apply parse_row_total; assumption.
Qed.

(** The loader stops at the first data row that does not parse, with
    what that row raises. *)
Lemma loader_first_failure p lines xb pre item post e :
  fs p = Some lines -> header lines = Some xb ->
  data_rows lines = (pre ++ item :: post)%list ->
  Forall (fun item => tokens_ok float_of_str item.2 = true
                      /\ count_ok xb item.2 = true) pre ->
  parse_row xb item = Raise e ->
  loader (PathArg p) = Raise e.
Proof.
  intros Hfs Hh Hsplit Hpre Hitem.
  rewrite (loader_rows p lines xb Hfs Hh), Hsplit.
  destruct (parse_rows_before xb pre Hpre) as [rows Hrows].
  rewrite (comprehension_first_failure _ _ _ post _ _ Hrows Hitem). reflexivity.
Qed.

(** X4: When every earlier data row has a row symbol, numbers for scores
    and one score per column, a data row with a row symbol and a score
    that is no number makes the loader raise for the first such score of
    the row, whether or not the row has one score per column: the scores
    are converted before their count is looked at. *)
Theorem loader_bad_number_first p lines xb pre n raw post y good bad rest :
  fs p = Some lines -> header lines = Some xb ->
  data_rows lines = (pre ++ (n, raw) :: post)%list ->
  Forall (fun item => tokens_ok float_of_str item.2 = true
                      /\ count_ok xb item.2 = true) pre ->
  row_symbol raw = Some y ->
  score_strs raw = (good ++ bad :: rest)%list ->
  Forall (fun s => is_Some (float_of_str s)) good ->
  float_of_str bad = None ->
  loader (PathArg p) = Raise (ValueError (BadFloat bad)).
Proof.
  intros Hfs Hh Hsplit Hpre Hy Hstrs Hgood Hbad.
  eapply loader_first_failure; try eassumption.
  unfold PairAlign.parse_row, row_symbol, score_strs in *. cbn [fst snd].
  destruct (split (strip raw)) as [|y' strs]; [discriminate|]. simpl in Hstrs. subst strs.
  destruct (comprehension_total
              (fun s => match float_of_str s with
                        | Some f => Ok f
                        | None => Raise (ValueError (BadFloat s))
                        end) good) as [fs' Hfs'].
  { eapply Forall_impl; [exact Hgood|]. intros s [f ->]. eauto. }
  erewrite comprehension_first_failure; [reflexivity | exact Hfs' |].
  rewrite Hbad. reflexivity.
Qed.

(** X6: The error about a count of scores names a line by its position in
    the file, counted from 1 with the comment lines, and reports the
    number of scores on that line and the number of symbols of the
    header. *)
Theorem loader_error_line p lines n k w :
  fs p = Some lines ->
  loader (PathArg p) = Raise (ValueError (CountMismatch n k w)) ->
  exists raw xb,
    1 <= n /\ lines !! (n - 1) = Some raw /\ is_comment raw = false
    /\ header lines = Some xb
    /\ k = length (score_strs raw) /\ w = length xb /\ k <> w.
Proof.
  intros Hfs Hload. destruct (header lines) as [xb|] eqn:Hh.
  2:{ unfold substitution_matrix_loader in Hload. rewrite Hfs in Hload.
      rewrite load_lines_no_header in Hload by assumption. discriminate. }
  rewrite (loader_rows p lines xb Hfs Hh) in Hload.
  destruct (comprehension _ _) as [rows|e] eqn:Hrows; simpl in Hload; [discriminate|].
  injection Hload as ->.
  apply comprehension_Raise in Hrows as ([n' raw] & Hin & Hrow).
  apply parse_row_Raise in Hrow as [[_ [=]]|[(s & _ & _ & [=])|[Hne [= -> -> ->]]]].
  apply data_rows_lines in Hin as (Hle & Hl & Hc).
  exists raw, xb. auto 10.
Qed.


End LoaderMore.

End LoaderExtra.
(** * Whitespace, words and lines *)

Module TextFacts.
Import Py PyText PairAlign.

Lemma lstrip_blank s : blank s = true -> lstrip s = EmptyString.
Proof.
  unfold blank. induction s as [|c s IH]; simpl; [reflexivity|].
  intros [Hc Hs]%andb_true_iff. rewrite Hc. apply IH, Hs.
Qed.

(** What is left of a string stripped on the left starts with a character
    that is no whitespace. *)
Lemma lstrip_head s :
  lstrip s = EmptyString
  \/ exists c rest, lstrip s = String c rest /\ isspace c = false.
Proof.
  induction s as [|c s IH]; simpl; [auto|].
  destruct (isspace c) eqn:Hc; [exact IH | eauto].
Qed.

Lemma rstrip_head c rest :
  isspace c = false -> exists rest', rstrip (String c rest) = String c rest'.
Proof.
  intros Hc. cbn [rstrip]. rewrite Hc. destruct (rstrip rest); eauto.
Qed.

Lemma strip_head s :
  strip s = EmptyString
  \/ exists c rest, strip s = String c rest /\ isspace c = false.
Proof.
  unfold strip. destruct (lstrip_head s) as [->|(c & rest & -> & Hc)]; [auto|].
  destruct (rstrip_head c rest Hc) as [rest' ->]. eauto.
Qed.

Lemma strip_blank s : blank s = true -> strip s = EmptyString.
Proof. intros Hs. unfold strip. rewrite lstrip_blank by assumption. reflexivity. Qed.

Lemma startswith_cons c rest p :
  startswith (String c rest) (String p EmptyString) = bool_decide (p = c).
Proof.
  unfold startswith. cbn [String.prefix].
  destruct (ascii_dec p c) as [->|Hne].
  - rewrite bool_decide_eq_true_2 by reflexivity. destruct rest; reflexivity.
  - rewrite bool_decide_eq_false_2 by assumption. reflexivity.
Qed.

(** X8: A line is a comment exactly when its first character that is no
    whitespace is [#]: indentation does not matter, nor what follows. *)
Theorem is_comment_first_character raw :
  is_comment raw = startswith (lstrip raw) "#".
Proof.
  unfold is_comment, strip.
  destruct (lstrip_head raw) as [->|(c & rest & -> & Hc)]; [reflexivity|].
  destruct (rstrip_head c rest Hc) as [rest' ->].
  rewrite !startswith_cons. reflexivity.
Qed.

Lemma spaceless_string_of_list l :
  spaceless (string_of_list_ascii l) = forallb (fun c => negb (isspace c)) l.
Proof. unfold spaceless. rewrite list_ascii_of_string_of_list_ascii. reflexivity. Qed.

Lemma forallb_rev {A} (f : A -> bool) l : forallb f (rev l) = forallb f l.
Proof.
  induction l as [|x l IH]; [reflexivity|]. simpl.
  rewrite forallb_app, IH. simpl. rewrite andb_true_r. apply andb_comm.
Qed.

(** The words [split] gives are not empty and hold no whitespace. *)
Lemma split_from_words word s :
  forallb (fun c => negb (isspace c)) word = true ->
  Forall (fun w => w <> EmptyString /\ spaceless w = true) (split_from word s).
Proof.
  assert (forall word, word <> [] ->
            forallb (fun c => negb (isspace c)) word = true ->
            string_of_list_ascii (rev word) <> EmptyString
            /\ spaceless (string_of_list_ascii (rev word)) = true) as Hword.
  { intros w Hne Hw. split.
    - intros Heq. apply (f_equal list_ascii_of_string) in Heq.
      rewrite list_ascii_of_string_of_list_ascii in Heq. simpl in Heq.
      apply (f_equal (@rev ascii)) in Heq. rewrite rev_involutive in Heq.
      simpl in Heq. contradiction.
    - rewrite spaceless_string_of_list, forallb_rev. exact Hw. }
  revert word. induction s as [|c s IH]; intros word Hw; simpl.
  - destruct word as [|c' word]; [constructor|].
    constructor; [|constructor]. apply Hword; [discriminate | exact Hw].
  - destruct (isspace c) eqn:Hc.
    + destruct word as [|c' word]; [apply IH; reflexivity|].
      constructor; [apply Hword; [discriminate | exact Hw] | apply IH; reflexivity].
    + apply IH. simpl. rewrite Hc, Hw. reflexivity.
Qed.

Lemma split_words s :
  Forall (fun w => w <> EmptyString /\ spaceless w = true) (split s).
Proof. apply split_from_words. reflexivity. Qed.

(** With a word under way, [split] gives at least that word, and it
    starts with what was read of it. *)
Lemma split_from_head word s :
  word <> [] ->
  exists w ws tl,
    split_from word s = w :: ws
    /\ list_ascii_of_string w = (rev word ++ tl)%list.
Proof.
  revert word. induction s as [|c s IH]; intros word Hne; simpl.
  - destruct word as [|c' word]; [contradiction|].
    eexists _, [], []. split; [reflexivity|].
    rewrite list_ascii_of_string_of_list_ascii, app_nil_r. reflexivity.
  - destruct (isspace c).
    + destruct word as [|c' word]; [contradiction|].
      eexists _, _, []. split; [reflexivity|].
      rewrite list_ascii_of_string_of_list_ascii, app_nil_r. reflexivity.
    + destruct (IH (c :: word)) as (w & ws & tl & Hsplit & Hw); [discriminate|].
      exists w, ws, (c :: tl). split; [exact Hsplit|].
      rewrite Hw. simpl. rewrite <- app_assoc. reflexivity.
Qed.

(** The first word of a stripped line starts with the line's first
    character. *)
Lemma split_strip_head raw w :
  head (split (strip raw)) = Some w ->
  exists c rest rest',
    strip raw = String c rest /\ isspace c = false /\ w = String c rest'.
Proof.
  destruct (strip_head raw) as [->|(c & rest & Hs & Hc)]; [discriminate|].
  rewrite Hs. unfold split. cbn [split_from]. rewrite Hc.
  destruct (split_from_head [c] rest) as (w' & ws & tl & -> & Hw); [discriminate|].
  intros [= <-]. exists c, rest, (string_of_list_ascii tl). repeat split; [assumption|].
  rewrite <- (string_of_list_ascii_of_string w'), Hw. reflexivity.
Qed.

Lemma blank_no_words raw : blank raw = true -> split (strip raw) = [].
Proof. intros Hb. rewrite strip_blank by assumption. reflexivity. Qed.

End TextFacts.

(** * Rows and symbols of a matrix file *)

Module LoaderSymbols.
Import Py PyText PairAlign PairAlignFacts LoaderExtra TextFacts.

Section Symbols.

Variable float_of_str : string -> option float.
Variable fs : string -> option (list string).

Abbreviation loader := (substitution_matrix_loader float_of_str fs).

(** X5: A blank line after the header is not skipped: the loader raises the
    ValueError of unpacking, provided the rows before it are in order. *)
Theorem loader_blank_row p lines xb pre n raw post :
  fs p = Some lines -> header lines = Some xb ->
  data_rows lines = (pre ++ (n, raw) :: post)%list ->
  Forall (fun item => tokens_ok float_of_str item.2 = true
                      /\ count_ok xb item.2 = true) pre ->
  blank raw = true ->
  loader (PathArg p) = Raise (ValueError NotEnoughValues).
Proof.
  intros Hfs Hh Hsplit Hpre Hblank.
  eapply loader_first_failure; try eassumption.
  unfold PairAlign.parse_row. cbn [snd].
  rewrite blank_no_words by assumption. reflexivity.
Qed.

(** Where an entry of a loaded matrix comes from. *)
Lemma loader_entry_origin p lines m c r v :
  fs p = Some lines -> loader (PathArg p) = Ok m -> m !! (c, r) = Some v ->
  exists xb n raw,
    header lines = Some xb /\ c ∈ xb
    /\ (n, raw) ∈ data_rows lines /\ row_symbol raw = Some r.
Proof.
  intros Hfs Hload Hm. destruct (header lines) as [xb|] eqn:Hh.
  2:{ unfold substitution_matrix_loader in Hload. rewrite Hfs in Hload.
      rewrite load_lines_no_header in Hload by assumption.
      injection Hload as <-. rewrite lookup_empty in Hm. discriminate. }
  rewrite (loader_rows _ _ p lines xb Hfs Hh) in Hload.
  destruct (comprehension _ _) as [rows|e] eqn:Hrows; simpl in Hload; [|discriminate].
  injection Hload as <-. apply comprehension_Forall2 in Hrows.
  apply foldl_assign_lookup_Some in Hm as [Hin|Hm];
    [|rewrite lookup_empty in Hm; discriminate].
  apply elem_of_entries in Hin as (scores & i & Hrow & Hc & _).
  apply list_elem_of_lookup in Hrow as [j Hj].
  destruct (Forall2_lookup_r _ _ _ _ _ Hrows Hj) as ([n raw] & Hitem & Hparse).
  apply parse_row_Ok in Hparse as (Hy & _ & _).
  exists xb, n, raw. repeat split; [|apply list_elem_of_lookup; eauto|assumption].
  apply list_elem_of_lookup. eauto.
Qed.

(** X9: The symbols in the keys of a loaded matrix are words: not empty and
    free of whitespace; and no row symbol starts with [#], since such a
    line counts as a comment. *)
Theorem loader_symbols p lines m c r v :
  fs p = Some lines -> loader (PathArg p) = Ok m -> m !! (c, r) = Some v ->
  (c <> EmptyString /\ spaceless c = true)
  /\ (r <> EmptyString /\ spaceless r = true)
  /\ startswith r "#" = false.
Proof.
  intros Hfs Hload Hm.
  destruct (loader_entry_origin p lines m c r v Hfs Hload Hm)
    as (xb & n & raw & Hh & Hc & Hin & Hr).
  split; [|split].
  - unfold header in Hh.
    destruct (head (noncomment (enumerate 1 lines))) as [[k h]|]; [|discriminate].
    injection Hh as <-. pose proof (split_words (strip h)) as Hwords.
    rewrite Forall_forall in Hwords. exact (Hwords c Hc).
  - pose proof (split_words (strip raw)) as Hwords. rewrite Forall_forall in Hwords.
    apply Hwords. unfold row_symbol in Hr.
    destruct (split (strip raw)) as [|w ws]; [discriminate|].
    injection Hr as ->. left.
  - pose proof (data_rows_noncomment lines n raw Hin) as Hnc.
    unfold row_symbol in Hr.
    apply split_strip_head in Hr as (c0 & rest & rest' & Hs & _ & ->).
    unfold is_comment in Hnc. rewrite Hs in Hnc.
    rewrite startswith_cons in *. exact Hnc.
Qed.

End Symbols.

End LoaderSymbols.

(** * Printing an alignment *)

Module AlignmentFacts.
Import Py PyText PairAlign TextFacts.

Lemma one_line_string_of_list l :
  one_line (string_of_list_ascii l) = forallb (fun c => negb (linebreak c)) l.
Proof. unfold one_line. rewrite list_ascii_of_string_of_list_ascii. reflexivity. Qed.

(** The lines [splitlines] gives hold no line break. *)
Lemma splitlines_from_one_line s :
  (forall line, forallb (fun c => negb (linebreak c)) line = true ->
                Forall (fun l => one_line l = true) (splitlines_from line s))
  /\ (forall c' s'', s = String c' s'' ->
      forall line, forallb (fun c => negb (linebreak c)) line = true ->
                   Forall (fun l => one_line l = true) (splitlines_from line s'')).
Proof.
  induction s as [|c s [IH1 IH2]].
  - split; [|discriminate]. intros line Hline. simpl.
    destruct line; constructor; [|constructor].
    rewrite one_line_string_of_list, forallb_rev. exact Hline.
  - split; [|intros c' s'' [= <- <-]; exact IH1].
    intros line Hline. cbn [splitlines_from].
    destruct (linebreak c) eqn:Hc.
    + constructor; [rewrite one_line_string_of_list, forallb_rev; exact Hline|].
      destruct s as [|c' s'']; [constructor|].
      destruct (_ && _); [apply (IH2 c' s'' eq_refl) | apply IH1]; reflexivity.
    + apply IH1. simpl. rewrite Hc, Hline. reflexivity.
Qed.

Lemma splitlines_one_line s : Forall (fun l => one_line l = true) (splitlines s).
Proof. apply splitlines_from_one_line. reflexivity. Qed.

(** A text without line breaks is one line, or none when it is empty. *)
Lemma splitlines_from_text line t :
  one_line t = true ->
  splitlines_from line t =
    match (rev line ++ list_ascii_of_string t)%list with
    | [] => []
    | l => [string_of_list_ascii l]
    end.
Proof.
  unfold one_line. revert line. induction t as [|c t IH]; intros line; simpl.
  - intros _. rewrite app_nil_r. destruct line as [|c line]; [reflexivity|].
    destruct (rev (c :: line)) eqn:Hrev; [|reflexivity].
    apply (f_equal (@length ascii)) in Hrev. rewrite length_rev in Hrev. discriminate.
  - intros [Hc Ht]%andb_true_iff. apply negb_true_iff in Hc. rewrite Hc.
    rewrite IH by assumption. simpl. rewrite <- app_assoc. reflexivity.
Qed.

(** A line feed after a text without line breaks ends a line. *)
Lemma splitlines_from_newline line t rest :
  one_line t = true ->
  splitlines_from line (t ++ String "010" rest) =
    string_of_list_ascii (rev line ++ list_ascii_of_string t) :: splitlines rest.
Proof.
  unfold one_line. revert line. induction t as [|c t IH]; intros line; simpl.
  - intros _. rewrite app_nil_r. destruct rest; reflexivity.
  - intros [Hc Ht]%andb_true_iff. apply negb_true_iff in Hc. rewrite Hc.
    rewrite IH by assumption. simpl. rewrite <- app_assoc. reflexivity.
Qed.

(** Three lines joined by line feeds split into the three lines again,
    unless the last one is empty. *)
Lemma splitlines_three t m q :
  one_line t = true -> one_line m = true -> one_line q = true ->
  q <> EmptyString ->
  splitlines (t ++ String "010" (m ++ String "010" q)) = [t; m; q].
Proof.
  intros Ht Hm Hq Hne. unfold splitlines.
  rewrite splitlines_from_newline by assumption. unfold splitlines.
  rewrite splitlines_from_newline by assumption. unfold splitlines.
  rewrite splitlines_from_text by assumption. simpl.
  rewrite !string_of_list_ascii_of_string.
  destruct q as [|c q]; [contradiction|]. simpl.
  rewrite string_of_list_ascii_of_string. reflexivity.
Qed.

(** X10: Printing a wrapper and splitting the text into lines gives back the
    three lines the wrapper was made from, as long as the last of them is
    not empty: [Alignment.__str__] undoes the [splitlines] of
    [Alignment.__init__]. *)
Theorem alignment_str_lines text alignment a :
  printed_lines alignment = splitlines text ->
  Alignment_init alignment = Ok a ->
  query a <> EmptyString ->
  splitlines (Alignment_str a) = splitlines text.
Proof.
  intros Hlines Hinit Hq. unfold Alignment_init in Hinit.
  pose proof (splitlines_one_line text) as Hone. rewrite <- Hlines in *.
  destruct (printed_lines alignment) as [|t [|m [|q [|]]]]; try discriminate.
  injection Hinit as <-. simpl in *.
  inversion Hone as [|? ? Ht Hone']; subst.
  inversion Hone' as [|? ? Hm Hone'']; subst.
  inversion Hone'' as [|? ? Hq' _]; subst.
  unfold Alignment_str. simpl. apply splitlines_three; assumption.
Qed.

(** With an empty last line the text printed has two lines only. *)
Lemma alignment_str_empty_query t m :
  one_line t = true -> one_line m = true ->
  splitlines (t ++ String "010" (m ++ String "010" EmptyString)) = [t; m].
Proof.
  intros Ht Hm. unfold splitlines.
  rewrite splitlines_from_newline by assumption. unfold splitlines.
  rewrite splitlines_from_newline by assumption. simpl.
  rewrite !string_of_list_ascii_of_string. reflexivity.
Qed.

End AlignmentFacts.

(** * More on the test harness *)

Module RunExtra.
Import Py Run RunFacts PairAlignFacts LoaderExtra.

(** [for key, value in d.items(): combined[key] = value] *)
Lemma update_lookup (combined d : gmap string pyobj) name :
  foldl (fun (combined : gmap string pyobj) item => <[item.1 := item.2]> combined)
        combined (map_to_list d) !! name
  = match d !! name with
    | Some obj => Some obj
    | None => combined !! name
    end.
Proof.
  change (foldl assign combined (map_to_list d) !! name
          = match d !! name with Some obj => Some obj | None => combined !! name end).
  destruct (d !! name) as [obj|] eqn:Hd.
  - apply foldl_assign_lookup_NoDup; [apply NoDup_fst_map_to_list|].
    apply elem_of_map_to_list, Hd.
  - apply foldl_assign_lookup_None. intros Hin.
    apply list_elem_of_fmap in Hin as ([k v] & -> & Hin).
    apply elem_of_map_to_list in Hin. simpl in Hd. congruence.
Qed.

Lemma add_dicts_snoc dicts d name :
  add_dicts (dicts ++ [d]) !! name
  = match d !! name with
    | Some obj => Some obj
    | None => add_dicts dicts !! name
    end.
Proof. unfold add_dicts. rewrite foldl_app. cbn [foldl]. apply update_lookup. Qed.

(** X13: In [add_dicts] a later dict wins over the earlier ones: a key has
    the value of the last dict that holds it, and no dicts give the empty
    dict. *)
Theorem add_dicts_last_wins dicts d name :
  add_dicts [] = ∅
  /\ add_dicts (dicts ++ [d]) !! name
     = match d !! name with
       | Some obj => Some obj
       | None => add_dicts dicts !! name
       end.
Proof. split; [reflexivity | apply add_dicts_snoc]. Qed.

Lemma add_dicts_nil : add_dicts [] = ∅.
Proof. reflexivity. Qed.

Lemma add_dicts_pair (a b : gmap string pyobj) name :
  add_dicts [a; b] !! name
  = match b !! name with
    | Some obj => Some obj
    | None => a !! name
    end.
Proof.
  change [a; b] with ([a] ++ [b])%list. rewrite add_dicts_snoc.
  destruct (b !! name); [reflexivity|].
  change [a] with ([] ++ [a])%list. rewrite add_dicts_snoc, add_dicts_nil.
  destruct (a !! name); [reflexivity | apply lookup_empty].
Qed.

Lemma diffs_disjoint (first second third : gmap string pyobj) ty name :
  is_Some (get_objects_diff first second ty !! name) ->
  get_objects_diff second third ty !! name = None.
Proof.
  intros [obj Hobj].
  destruct (get_objects_diff second third ty !! name) as [obj'|] eqn:Hobj';
    [|reflexivity].
  apply get_objects_diff_lookup in Hobj as (Hin & _ & _).
  apply get_objects_diff_lookup in Hobj' as (_ & Hout & _). congruence.
Qed.

(** X14: Two diffs over consecutive snapshots share no name: what is new in
    the second snapshot is in it, so it cannot be new in the third.  So
    no test is both active and inactive. *)
Theorem consecutive_diffs_disjoint (first second third : gmap string pyobj) ty name :
  is_Some (get_objects_diff first second ty !! name) ->
  get_objects_diff second third ty !! name = None.
Proof. apply diffs_disjoint. Qed.

Section HarnessMore.

Variable run_as_script : bool.
Variable test_raises : pyobj -> string -> option exn.
Variables GlobalsInitial GlobalsAfterMeta GlobalsAfterActive GlobalsAfterInactive
  : gmap string pyobj.

Abbreviation meta_tests := (meta_tests GlobalsInitial GlobalsAfterMeta).
Abbreviation active_tests := (active_tests GlobalsAfterMeta GlobalsAfterActive).
Abbreviation inactive_tests := (inactive_tests GlobalsAfterActive GlobalsAfterInactive).
Abbreviation simple_tests :=
  (simple_tests GlobalsAfterMeta GlobalsAfterActive GlobalsAfterInactive).
Abbreviation all_tests :=
  (all_tests GlobalsInitial GlobalsAfterMeta GlobalsAfterActive GlobalsAfterInactive).
Abbreviation main :=
  (main run_as_script test_raises
        GlobalsInitial GlobalsAfterMeta GlobalsAfterActive GlobalsAfterInactive).
Abbreviation call :=
  (call test_raises GlobalsAfterMeta GlobalsAfterActive GlobalsAfterInactive).

(** No test is both active and inactive. *)
Lemma active_inactive_disjoint name :
  is_Some (active_tests !! name) -> inactive_tests !! name = None.
Proof.
  apply (diffs_disjoint GlobalsAfterMeta GlobalsAfterActive GlobalsAfterInactive).
Qed.

(** X15: The registered tests: a name is looked up among the inactive tests,
    then the active tests, then the meta tests.  So a test function
    defined at module level under the name of a group runner ('all',
    'active', 'inactive') takes the runner's place. *)
Theorem all_tests_lookup name :
  all_tests !! name
  = match inactive_tests !! name with
    | Some test_fxn => Some test_fxn
    | None =>
        match active_tests !! name with
        | Some test_fxn => Some test_fxn
        | None => meta_tests !! name
        end
    end.
Proof.
  unfold Run.all_tests, Run.simple_tests. rewrite !add_dicts_pair.
  destruct (inactive_tests !! name); [reflexivity|].
  destruct (active_tests !! name); reflexivity.
Qed.

End HarnessMore.

End RunExtra.

(** * Running tests *)

Module RunMain.
Import Py Run RunFacts RunTools RunExtra.


Section Running.

Variable run_as_script : bool.
Variable test_raises : pyobj -> string -> option exn.
Variables GlobalsInitial GlobalsAfterMeta GlobalsAfterActive GlobalsAfterInactive
  : gmap string pyobj.

Abbreviation meta_tests := (meta_tests GlobalsInitial GlobalsAfterMeta).
Abbreviation active_tests := (active_tests GlobalsAfterMeta GlobalsAfterActive).
Abbreviation inactive_tests := (inactive_tests GlobalsAfterActive GlobalsAfterInactive).
Abbreviation simple_tests :=
  (simple_tests GlobalsAfterMeta GlobalsAfterActive GlobalsAfterInactive).
Abbreviation all_tests :=
  (all_tests GlobalsInitial GlobalsAfterMeta GlobalsAfterActive GlobalsAfterInactive).
Abbreviation main :=
  (main run_as_script test_raises
        GlobalsInitial GlobalsAfterMeta GlobalsAfterActive GlobalsAfterInactive).
Abbreviation call :=
  (call test_raises GlobalsAfterMeta GlobalsAfterActive GlobalsAfterInactive).
Abbreviation call_function := (call_function test_raises).
Abbreviation run_test_group := (run_test_group test_raises).

Lemma call_function_returns test_fxn name log :
  test_raises test_fxn name = None ->
  call_function test_fxn name log = ((log ++ [Invoke test_fxn name])%list, Ok tt).
Proof.
  intros Hr. unfold Run.call_function, mbind, M_bind, emit. rewrite Hr. reflexivity.
Qed.

Lemma call_function_raises test_fxn name e log :
  test_raises test_fxn name = Some e ->
  call_function test_fxn name log = ((log ++ [Invoke test_fxn name])%list, Raise e).
Proof.
  intros Hr. unfold Run.call_function, mbind, M_bind, emit. rewrite Hr. reflexivity.
Qed.

Lemma call_plain test_fxn name :
  (forall g, test_fxn <> Lambda g) -> call test_fxn name = call_function test_fxn name.
Proof.
  intros Hplain. destruct test_fxn as [f|g|ty repr]; try reflexivity.
  destruct (Hplain g eq_refl).
Qed.


(** The tests of a list, each a registered test given by [def] that
    returns: running them one after the other calls each with its own
    name, in order. *)
Lemma run_plain_tests tests log :
  Forall (fun test_name =>
            exists test_fxn,
              all_tests !! test_name = Some test_fxn
              /\ (forall g, test_fxn <> Lambda g)
              /\ test_raises test_fxn test_name = None) tests ->
  for_each tests (fun test_name =>
      match all_tests !! test_name with
      | Some test_fxn => call test_fxn test_name
      | None => raise (Exception "KeyError")
      end) log
  = ((log ++ invocations all_tests tests)%list, Ok tt).
Proof.
  intros Hall. revert log.
  induction Hall as [|t tests (f & Hf & Hplain & Hr) _ IH]; intros log.
  - simpl. rewrite app_nil_r. reflexivity.
  - cbn [for_each]. unfold mbind, M_bind. rewrite Hf, call_plain by assumption.
    rewrite call_function_returns by assumption. rewrite IH.
    unfold invocations. cbn [omap list_omap]. rewrite Hf. simpl.
    rewrite <- app_assoc. reflexivity.
Qed.

Lemma no_unknown_tests tests :
  Forall (fun test_name => is_Some (all_tests !! test_name)) tests ->
  filter (fun test_name => contains all_tests test_name = false) tests = [].
Proof.
  induction 1 as [|t tests Ht _ IH]; [reflexivity|].
  rewrite filter_cons_False; [exact IH|].
  intros Hc. apply contains_false in Hc. destruct Ht as [f Hf]. congruence.
Qed.

(** X17: When every requested name is a registered test function given by
    [def] and none of the calls raises, [main] calls exactly these
    functions, each with its own name, in the order requested, and
    returns [None]. *)
Theorem main_runs_requested tests log :
  tests <> [] ->
  Forall (fun test_name =>
            exists test_fxn,
              all_tests !! test_name = Some test_fxn
              /\ (forall g, test_fxn <> Lambda g)
              /\ test_raises test_fxn test_name = None) tests ->
  main tests log = ((log ++ invocations all_tests tests)%list, Ok None).
Proof.
  intros Hne Hall. unfold Run.main.
  rewrite bool_decide_eq_false_2 by assumption.
  rewrite no_unknown_tests
    by (eapply Forall_impl; [exact Hall|]; intros t (f & Hf & _); eauto).
  rewrite bool_decide_eq_true_2 by reflexivity.
  unfold mbind at 1, M_bind at 1. unfold mret at 1, M_ret at 1.
  unfold mbind, M_bind. rewrite run_plain_tests by assumption. reflexivity.
Qed.

(** X18: The first call that raises ends the run: the tests requested after
    it are not called, and [main] raises what the test raised. *)
Theorem main_stops_at_first_failure before test_name test_fxn after e log :
  Forall (fun test_name =>
            exists test_fxn,
              all_tests !! test_name = Some test_fxn
              /\ (forall g, test_fxn <> Lambda g)
              /\ test_raises test_fxn test_name = None) before ->
  all_tests !! test_name = Some test_fxn ->
  (forall g, test_fxn <> Lambda g) ->
  test_raises test_fxn test_name = Some e ->
  Forall (fun test_name => is_Some (all_tests !! test_name)) after ->
  main (before ++ test_name :: after) log
  = ((log ++ invocations all_tests before ++ [Invoke test_fxn test_name])%list,
     Raise e).
Proof.
  intros Hbefore Hf Hplain Hr Hafter. unfold Run.main.
  rewrite bool_decide_eq_false_2 by (destruct before; discriminate).
  rewrite no_unknown_tests.
  2:{ apply Forall_app. split.
      - eapply Forall_impl; [exact Hbefore|]. intros t (f & Ht & _). eauto.
      - constructor; [eauto | exact Hafter]. }
  rewrite bool_decide_eq_true_2 by reflexivity.
  unfold mbind at 1, M_bind at 1. unfold mret at 1, M_ret at 1.
  unfold mbind at 1, M_bind at 1.
  assert (forall tests body log',
            for_each (before ++ tests) body log'
            = match for_each before body log' with
              | (log'', Ok _) => for_each tests body log''
              | (log'', Raise e') => (log'', Raise e')
              end) as Happ.
  { intros tests body. clear. induction before as [|b before IH]; intros log'.
    - reflexivity.
    - simpl. unfold mbind, M_bind. destruct (body b log') as [log'' [[]|e']].
      + apply IH.
      + reflexivity. }
  rewrite Happ, run_plain_tests by assumption.
  cbn [for_each]. unfold mbind, M_bind.
  rewrite Hf, call_plain by assumption.
  rewrite (call_function_raises test_fxn test_name e) by assumption.
  rewrite <- app_assoc. reflexivity.
Qed.

(** A group that runs through calls each of its tests once, under the
    name it is registered with. *)
Lemma run_test_group_events (test_group : gmap string pyobj) log :
  (forall name test_fxn,
      test_group !! name = Some test_fxn -> test_raises test_fxn name = None) ->
  run_test_group test_group log
  = ((log ++ group_invocations test_group)%list, Ok tt).
Proof.
  intros Hr. unfold Run.run_test_group, group_invocations.
  assert (Forall (fun item : string * pyobj => test_raises item.2 item.1 = None)
                 (map_to_list test_group)) as Hall.
  { apply Forall_forall. intros [name f] Hin. apply elem_of_map_to_list in Hin.
    exact (Hr name f Hin). }
  revert log. induction Hall as [|[name f] items Hitem _ IH]; intros log.
  - simpl. rewrite app_nil_r. reflexivity.
  - cbn [for_each]. unfold mbind, M_bind. simpl in Hitem.
    cbn [fst snd]. rewrite call_function_returns by assumption. rewrite IH.
    simpl. rewrite <- app_assoc. reflexivity.
Qed.

(** The items of the simple tests are those of the active and of the
    inactive tests, each once. *)
Lemma simple_tests_items :
  map_to_list simple_tests ≡ₚ (map_to_list active_tests ++ map_to_list inactive_tests)%list.
Proof.
  apply NoDup_Permutation.
  - apply NoDup_map_to_list.
  - apply NoDup_app. split; [apply NoDup_map_to_list|]. split; [|apply NoDup_map_to_list].
    intros [name f] Ha Hi. apply elem_of_map_to_list in Ha, Hi.
    pose proof (active_inactive_disjoint GlobalsAfterMeta GlobalsAfterActive
                  GlobalsAfterInactive name (ex_intro _ f Ha)) as Hnone.
    congruence.
  - intros [name f]. rewrite elem_of_app, !elem_of_map_to_list.
    unfold Run.simple_tests. rewrite add_dicts_pair.
    destruct (inactive_tests !! name) as [g|] eqn:Hi.
    + split; [intros [= ->]; auto|]. intros [Ha|Hg]; [|exact Hg].
      pose proof (active_inactive_disjoint GlobalsAfterMeta GlobalsAfterActive
                    GlobalsAfterInactive name (ex_intro _ f Ha)) as Hnone.
      congruence.
    + split; [auto|]. intros [Ha|[=]]. exact Ha.
Qed.

(** X19: The runner 'all' calls every active and every inactive test exactly
    once, each under the name it is registered with, whatever name the
    runner itself is called with. *)
Theorem all_runs_every_test name log :
  (forall test_name test_fxn,
      simple_tests !! test_name = Some test_fxn ->
      test_raises test_fxn test_name = None) ->
  exists events,
    call (Lambda SimpleTests) name log = ((log ++ events)%list, Ok tt)
    /\ events ≡ₚ (group_invocations active_tests
                  ++ group_invocations inactive_tests)%list.
Proof.
  intros Hr. exists (group_invocations simple_tests). split.
  - cbn [Run.call]. apply run_test_group_events, Hr.
  - unfold group_invocations. rewrite <- map_app.
    apply Permutation_map, simple_tests_items.
Qed.

End Running.

End RunMain.

(** * The helpers of the test harness *)

Module RunToolsFacts.
Import Py PyText Run RunTools TextFacts AlignmentFacts.

(** ** [trimmed_diff] *)

Lemma trimmed_loop_none lineterm diff_lines :
  trimmed_loop lineterm LineNone diff_lines = diff_lines.
Proof. induction diff_lines as [|line rest IH]; simpl; [|rewrite IH]; reflexivity. Qed.

Lemma trimmed_loop_2 lineterm diff_lines :
  trimmed_loop lineterm Line2 diff_lines = diff_lines.
Proof. destruct diff_lines; simpl; [|rewrite trimmed_loop_none]; reflexivity. Qed.

Lemma trimmed_step_from_0 lineterm line :
  trimmed_step lineterm Line0 line = Line0 \/ trimmed_step lineterm Line0 line = Line1.
Proof. simpl. destruct (String.eqb _ _); auto. Qed.

Lemma trimmed_step_from_1 lineterm line :
  trimmed_step lineterm Line1 line = Line1 \/ trimmed_step lineterm Line1 line = Line2.
Proof. simpl. destruct (String.eqb _ _); auto. Qed.

(** From each state, what the loop yields is a final part of the lines
    it reads, after as many lines as the header still has. *)
Lemma trimmed_loop_suffix lineterm h diff_lines :
  exists dropped,
    diff_lines = (dropped ++ trimmed_loop lineterm h diff_lines)%list
    /\ (trimmed_loop lineterm h diff_lines = []
        \/ match h with Line0 => 2 | Line1 => 1 | _ => 0 end <= length dropped).
Proof.
  revert h. induction diff_lines as [|line rest IH]; intros h.
  - exists []. auto.
  - destruct h.
    + cbn [trimmed_loop].
      destruct (trimmed_step_from_0 lineterm line) as [-> | ->].
      * destruct (IH Line0) as (dropped & Hrest & Hlen).
        exists (line :: dropped). split; [simpl; f_equal; exact Hrest|].
        destruct Hlen as [Hnil|Hlen]; [auto | right; simpl; lia].
      * destruct (IH Line1) as (dropped & Hrest & Hlen).
        exists (line :: dropped). split; [simpl; f_equal; exact Hrest|].
        destruct Hlen as [Hnil|Hlen]; [auto | right; simpl; lia].
    + cbn [trimmed_loop].
      destruct (trimmed_step_from_1 lineterm line) as [-> | ->].
      * destruct (IH Line1) as (dropped & Hrest & Hlen).
        exists (line :: dropped). split; [simpl; f_equal; exact Hrest|].
        destruct Hlen as [Hnil|Hlen]; [auto | right; simpl; lia].
      * destruct (IH Line2) as (dropped & Hrest & Hlen).
        exists (line :: dropped). split; [simpl; f_equal; exact Hrest|].
        destruct Hlen as [Hnil|Hlen]; [auto | right; simpl; lia].
    + exists []. rewrite trimmed_loop_2. split; [reflexivity | right; simpl; lia].
    + exists []. rewrite trimmed_loop_none. split; [reflexivity | right; simpl; lia].
Qed.

Section DiffFacts.

Variable unified_diff : list string -> list string -> string -> list string.

Abbreviation trimmed_diff := (trimmed_diff unified_diff).

(** X20: [trimmed_diff] drops exactly the two header lines of a unified diff
    and yields the rest, the first hunk header included. *)
Theorem trimmed_diff_drops_header lines1 lines2 lineterm rest :
  unified_diff lines1 lines2 lineterm
  = ("--- a" ++ RunText.tab ++ "c" ++ lineterm)
    :: ("+++ b" ++ RunText.tab ++ "d" ++ lineterm) :: rest ->
  trimmed_diff lines1 lines2 lineterm = rest.
Proof.
  intros Hdiff. unfold RunTools.trimmed_diff. rewrite Hdiff.
  assert (trimmed_step lineterm Line0 ("--- a" ++ RunText.tab ++ "c" ++ lineterm) = Line1)
    as Hfirst by (simpl; rewrite String.eqb_refl; reflexivity).
  assert (trimmed_step lineterm Line1 ("+++ b" ++ RunText.tab ++ "d" ++ lineterm) = Line2)
    as Hsecond by (simpl; rewrite String.eqb_refl; reflexivity).
  cbn [trimmed_loop]. rewrite Hfirst. cbn iota. rewrite Hsecond. cbn iota.
  apply trimmed_loop_2.
Qed.

(** X21: Whatever the diff, [trimmed_diff] yields a final part of it, and
    when it yields anything at least two lines came before. *)
Theorem trimmed_diff_suffix lines1 lines2 lineterm :
  exists dropped,
    unified_diff lines1 lines2 lineterm
    = (dropped ++ trimmed_diff lines1 lines2 lineterm)%list
    /\ (trimmed_diff lines1 lines2 lineterm = [] \/ 2 <= length dropped).
Proof. apply (trimmed_loop_suffix lineterm Line0). Qed.

(** X22: Without the first header line nothing is yielded; so it is for an
    empty diff. *)
Theorem trimmed_diff_without_header lines1 lines2 lineterm :
  ("--- a" ++ RunText.tab ++ "c" ++ lineterm) ∉ unified_diff lines1 lines2 lineterm ->
  trimmed_diff lines1 lines2 lineterm = [].
Proof.
  unfold RunTools.trimmed_diff.
  induction (unified_diff lines1 lines2 lineterm) as [|line rest IH]; [reflexivity|].
  intros Hnot. cbn [trimmed_loop trimmed_step].
  destruct (String.eqb_spec line ("--- a" ++ RunText.tab ++ "c" ++ lineterm)) as [->|_].
  - exfalso. apply Hnot. left.
  - apply IH. intros Hin. apply Hnot. right. exact Hin.
Qed.

End DiffFacts.

(** ** [head] *)

Lemma string_app_assoc (a b c : string) : (a ++ b) ++ c = a ++ (b ++ c).
Proof.
  induction a as [|ch a IH]; [reflexivity|].
  change (String ch ((a ++ b) ++ c) = String ch (a ++ (b ++ c))).
  f_equal. exact IH.
Qed.

Lemma concat_snoc sep (ls : list string) x :
  ls <> [] -> String.concat sep (ls ++ [x]) = String.concat sep ls ++ sep ++ x.
Proof.
  induction ls as [|l ls IH]; [contradiction|]. intros _.
  destruct ls as [|l' ls]; [reflexivity|].
  change (String.concat sep ((l :: l' :: ls) ++ [x]))
    with (l ++ sep ++ String.concat sep ((l' :: ls) ++ [x])).
  rewrite IH by discriminate.
  change (String.concat sep (l :: l' :: ls))
    with (l ++ sep ++ String.concat sep (l' :: ls)).
  rewrite !string_app_assoc. reflexivity.
Qed.

(** Lines joined by line feeds split into the same lines again, unless
    the last line is empty. *)
Lemma splitlines_concat (ls : list string) :
  Forall (fun l => one_line l = true) ls -> last ls <> Some EmptyString ->
  splitlines (String.concat RunText.newline ls) = ls.
Proof.
  induction 1 as [|l ls Hl Hls IH]; [reflexivity|]. intros Hlast.
  destruct ls as [|l' ls].
  - simpl. unfold splitlines. rewrite splitlines_from_text by assumption. simpl.
    destruct l as [|c l]; [destruct Hlast; reflexivity|]. simpl.
    rewrite string_of_list_ascii_of_string. reflexivity.
  - change (String.concat RunText.newline (l :: l' :: ls))
      with (l ++ String "010" (String.concat RunText.newline (l' :: ls))).
    unfold splitlines at 1. rewrite splitlines_from_newline by assumption.
    simpl rev. rewrite app_nil_l, string_of_list_ascii_of_string.
    f_equal. apply IH. exact Hlast.
Qed.

(** X23: [head] keeps a text of at most [lines] lines (whose last line is
    not empty), and cuts a longer one after [lines] lines, marking the
    cut with a line of its own; with [lines = 0] the mark comes after an
    empty line. *)
Theorem head_lines text lines :
  (length (splitlines text) <= lines ->
   last (splitlines text) <> Some EmptyString ->
   splitlines (RunText.head text lines) = splitlines text)
  /\ (lines < length (splitlines text) -> 1 <= lines ->
      splitlines (RunText.head text lines)
      = (take lines (splitlines text) ++ [(RunText.tab ++ "...")%string])%list)
  /\ (0 < length (splitlines text) ->
      splitlines (RunText.head text 0) = [EmptyString; RunText.tab ++ "..."]).
Proof.
  pose proof (splitlines_one_line text) as Hone. unfold RunText.head.
  split; [|split].
  - intros Hlen Hlast. apply Nat.ltb_ge in Hlen. rewrite Hlen.
    apply Nat.ltb_ge in Hlen. rewrite take_ge by assumption.
    apply splitlines_concat; assumption.
  - intros Hlen Hpos. apply Nat.ltb_lt in Hlen. rewrite Hlen.
    apply Nat.ltb_lt in Hlen.
    assert (take lines (splitlines text) <> []) as Hne.
    { intros Hnil. apply (f_equal (@length string)) in Hnil.
      rewrite length_take in Hnil. simpl in Hnil. lia. }
    rewrite <- concat_snoc by assumption. apply splitlines_concat.
    + apply Forall_app. split; [apply Forall_take, Hone|].
      constructor; [reflexivity | constructor].
    + rewrite last_snoc. discriminate.
  - intros Hlen. apply Nat.ltb_lt in Hlen. rewrite Hlen. reflexivity.
Qed.

(** ** Running commands *)

Section SubprocessFacts.

Variable subprocess_run :
  list string -> stream -> stream -> result CompletedProcess.
Variable utf8 : string -> result string.
Variable describe : exn -> string.

Abbreviation run_command_and_catch :=
  (run_command_and_catch subprocess_run describe).
Abbreviation run_command_and_capture :=
  (run_command_and_capture subprocess_run utf8 describe).
Abbreviation run_command := (run_command subprocess_run utf8 describe).

(** [run_command_and_catch] returns what [subprocess.run] returns, and
    returns nothing when [subprocess.run] raises: whatever [onerror] is,
    it raises then. *)
Lemma run_command_and_catch_Ok command onerror out err result :
  (run_command_and_catch command onerror out err).2 = Ok result
  <-> subprocess_run command out err = Ok result.
Proof.
  unfold RunTools.run_command_and_catch.
  destruct (subprocess_run command out err) as [r|e]; simpl; [reflexivity|].
  split; [|discriminate].
  destruct e; simpl; try discriminate.
  destruct (String.eqb onerror "stderr"); [discriminate|].
  destruct (String.eqb onerror "warn"); [discriminate|].
  destruct (String.eqb onerror "raise"); discriminate.
Qed.

(** X24: [run_command_and_capture] returns the output and the exit code of a
    process exactly when [subprocess.run] returned the process and what
    has to be decoded is UTF-8; a command that cannot be started makes it
    raise with every [onerror], 'warn' and 'stderr' included. *)
Theorem run_command_and_capture_returns command onerror text code :
  (run_command_and_capture command onerror).2 = Ok (text, code)
  <-> exists result,
        subprocess_run command PIPE PIPE = Ok result
        /\ returncode result = code
        /\ utf8 (stdout result) = Ok text
        /\ (code <> 0%Z -> onerror = "stderr" ->
            exists message, utf8 (stderr result) = Ok message).
Proof.
  unfold RunTools.run_command_and_capture.
  pose proof (run_command_and_catch_Ok command onerror PIPE PIPE) as Hcatch.
  destruct (run_command_and_catch command onerror PIPE PIPE) as [log [result|e]];
    simpl in Hcatch.
  - assert (subprocess_run command PIPE PIPE = Ok result) as Hrun
      by (apply Hcatch; reflexivity).
    rewrite Hrun. clear Hcatch.
    destruct (negb (returncode result =? 0)%Z && String.eqb onerror "stderr") eqn:Hlog.
    + apply andb_true_iff in Hlog as [Hcode Hon].
      apply negb_true_iff, Z.eqb_neq in Hcode. apply String.eqb_eq in Hon.
      destruct (utf8 (stderr result)) as [message|e] eqn:Herr; simpl.
      * destruct (utf8 (stdout result)) as [out|e] eqn:Hout; simpl.
        -- split.
           ++ intros [= <- <-]. exists result. eauto 10.
           ++ intros (r & [= <-] & <- & Ht & _). congruence.
        -- split; [discriminate|]. intros (r & [= <-] & _ & Ht & _). congruence.
      * split; [discriminate|]. intros (r & [= <-] & <- & _ & Hdec).
        destruct (Hdec Hcode Hon) as [message Hm]. congruence.
    + simpl. destruct (utf8 (stdout result)) as [out|e] eqn:Hout; simpl.
      * split.
        -- intros [= <- <-]. exists result. repeat split; [assumption|].
           intros Hcode Hon. exfalso. subst onerror.
           apply Z.eqb_neq in Hcode. rewrite Hcode in Hlog. discriminate.
        -- intros (r & [= <-] & <- & Ht & _). congruence.
      * split; [discriminate|]. intros (r & [= <-] & _ & Ht & _). congruence.
  - split; [discriminate|]. intros (r & Hrun & _).
    apply Hcatch in Hrun. discriminate.
Qed.

(** X25: For a process that ran and whose standard error decodes as
    UTF-8, [run_command] logs the standard error exactly when [onerror] is
    'stderr' and the exit code is not 0, and returns the exit code. *)
Theorem run_command_logs command onerror result message :
  subprocess_run command Inherited
                 (if String.eqb onerror "stderr" then PIPE else DEVNULL) = Ok result ->
  utf8 (stderr result) = Ok message ->
  run_command command onerror
  = (if String.eqb onerror "stderr" && negb (returncode result =? 0)%Z
     then [message] else [],
     Ok (returncode result)).
Proof.
  intros Hrun Hdec. unfold RunTools.run_command, RunTools.run_command_and_catch.
  destruct (String.eqb onerror "stderr"); rewrite Hrun; simpl.
  - destruct (returncode result =? 0)%Z; simpl; [reflexivity|].
    rewrite Hdec. reflexivity.
  - reflexivity.
Qed.

End SubprocessFacts.

End RunToolsFacts.

(** * The command line of [pair_align.py] *)

Module CliFacts.
Import Py PairAlign PairAlignCli PairAlignFacts LoaderExtra.

Section CliClaims.

Variable float_of_str : string -> option float.
Variable fs : string -> option (list string).
Variable NativeMatrix : Type.
Variable substitution_matrices : option (file_arg -> NativeMatrix + string).
Variable engine_align :
  PairwiseAligner NativeMatrix -> string -> string
  -> list EngineAlignment + string.
Variable DEFAULT_MATRIX : string.

Abbreviation main :=
  (main float_of_str fs NativeMatrix substitution_matrices engine_align DEFAULT_MATRIX).

Lemma loader_path_exn p e :
  substitution_matrix_loader float_of_str fs (PathArg p) = Raise e ->
  from_command_line e.
Proof.
  intros Hload. destruct (fs p) as [lines|] eqn:Hfs.
  2:{ unfold substitution_matrix_loader in Hload. rewrite Hfs in Hload.
      injection Hload as <-. exact I. }
  destruct (header lines) as [xb|] eqn:Hh.
  2:{ unfold substitution_matrix_loader in Hload. rewrite Hfs in Hload.
      rewrite load_lines_no_header in Hload by assumption. discriminate. }
  rewrite (loader_rows float_of_str fs p lines xb Hfs Hh) in Hload.
  destruct (comprehension _ _) as [rows|e'] eqn:Hrows; simpl in Hload; [discriminate|].
  injection Hload as ->.
  apply comprehension_Raise in Hrows as ([n raw] & _ & Hrow).
  apply parse_row_Raise in Hrow as [[_ ->]|[(s & _ & _ & ->)|[_ ->]]]; exact I.
Qed.

Lemma Aligner_align_exn (self : Aligner NativeMatrix) seq1 seq2 e :
  Aligner_align NativeMatrix engine_align self seq1 seq2 = Raise e ->
  from_command_line e.
Proof.
  unfold Aligner_align.
  destruct (engine_align (_aligner _ self) seq1 seq2) as [alignments|tag]; simpl.
  - destruct alignments as [|first rest]; simpl; [discriminate|].
    unfold Alignment_init.
    destruct (printed_lines first) as [|t [|m [|q [|x l]]]]; simpl;
      try discriminate; intros [= <-]; exact I.
  - intros [= <-]. exact I.
Qed.

Lemma Aligner_init_path_exn scope go ge p e :
  (Aligner_init float_of_str fs NativeMatrix substitution_matrices
     scope go ge (PathArg p) None).2 = Raise e ->
  from_command_line e.
Proof.
  unfold Aligner_init. cbn [truthy negb].
  destruct substitution_matrices as [read|]; cbn [snd].
  - destruct (read (PathArg p)) as [m|tag]; simpl; [|intros [= <-]; exact I].
    intros Hconf. apply configure_Raise in Hconf. subst. exact I.
  - destruct (substitution_matrix_loader float_of_str fs (PathArg p))
      as [m|e'] eqn:Hload; simpl.
    + intros Hconf. apply configure_Raise in Hconf. subst. exact I.
    + intros [= <-]. eapply loader_path_exn, Hload.
Qed.

(** X12: From the command line the constructor's RuntimeError cannot happen,
    nor an AttributeError of the loader: [main] always passes a path.
    What [main] can raise is an OSError (the matrix file cannot be
    opened), a ValueError (of the loader or of the wrapper), an
    OverflowError (of the sum of the penalties) or what the library
    raises. *)
Theorem main_exceptions args e :
  main args = Raise e -> from_command_line e.
Proof.
  unfold PairAlignCli.main, align.
  set (path := match matrix args with Some p => p | None => DEFAULT_MATRIX end).
  destruct (Aligner_init float_of_str fs NativeMatrix substitution_matrices
              (scope args) (gap_open args) (gap_extend args) (PathArg path) None).2
    as [a|e'] eqn:Hinit; simpl.
  - destruct (Aligner_align NativeMatrix engine_align a (seq1 args) (seq2 args))
      as [r|e'] eqn:Ha; simpl; [discriminate|].
    intros [= <-]. eapply Aligner_align_exn, Ha.
  - intros [= <-]. eapply Aligner_init_path_exn, Hinit.
Qed.

(** When the engine finds nothing to align, [main] prints [None]. *)
Lemma main_prints_None args a :
  (Aligner_init float_of_str fs NativeMatrix substitution_matrices
     (scope args) (gap_open args) (gap_extend args)
     (PathArg (match matrix args with Some path => path | None => DEFAULT_MATRIX end))
     None).2 = Ok a ->
  engine_align (_aligner _ a) (seq1 args) (seq2 args) = inl [] ->
  main args = Ok "None".
Proof.
  intros Hinit Hnone. unfold PairAlignCli.main, align. rewrite Hinit. simpl.
  unfold Aligner_align. rewrite Hnone. reflexivity.
Qed.

End CliClaims.

End CliFacts.

(** * The sign of the gap scores *)

Module ScoreSigns.
Import Py PyText PairAlign PairAlignFacts.

Lemma leb_zero_nonneg f : PrimFloat.leb 0%float f = SFnonneg (Prim2SF f).
Proof.
  rewrite leb_spec. change (Prim2SF 0%float) with (S754_zero false).
  unfold SFleb, SFcompare, SFnonneg.
  destruct (Prim2SF f) as [s|s| |s m e]; try reflexivity; destruct s; reflexivity.
Qed.

Lemma leb_nonpos f : PrimFloat.leb f 0%float = SFnonneg (SFopp (Prim2SF f)).
Proof.
  rewrite leb_spec. change (Prim2SF 0%float) with (S754_zero false).
  unfold SFleb, SFcompare, SFnonneg, SFopp.
  destruct (Prim2SF f) as [s|s| |s m e]; try reflexivity; destruct s; reflexivity.
Qed.

Lemma opp_nonpos f :
  PrimFloat.leb 0%float f = true -> PrimFloat.leb (PrimFloat.opp f) 0%float = true.
Proof.
  rewrite leb_zero_nonneg, leb_nonpos, opp_spec.
  destruct (Prim2SF f) as [s|s| |s m e]; simpl; try destruct s; auto.
Qed.

(** Rounding keeps a mantissa that is not negative so. *)
Lemma shr_1_nonneg mrs : (0 <= shr_m mrs)%Z -> (0 <= shr_m (shr_1 mrs))%Z.
Proof.
  destruct mrs as [m r s]. simpl. destruct m as [|p|p]; simpl; try lia.
  destruct p; simpl; lia.
Qed.

Lemma iter_pos_shr_1_nonneg p mrs :
  (0 <= shr_m mrs)%Z -> (0 <= shr_m (SpecFloat.iter_pos shr_1 p mrs))%Z.
Proof.
  revert mrs. induction p as [p IH|p IH|]; intros mrs Hm; simpl.
  - apply IH, IH, shr_1_nonneg, Hm.
  - apply IH, IH, Hm.
  - apply shr_1_nonneg, Hm.
Qed.

Lemma shr_nonneg mrs e n :
  (0 <= shr_m mrs)%Z -> (0 <= shr_m (shr mrs e n).1)%Z.
Proof.
  intros Hm. unfold shr. destruct n; simpl; try assumption.
  apply iter_pos_shr_1_nonneg, Hm.
Qed.

Lemma shr_record_of_loc_m m l : shr_m (shr_record_of_loc m l) = m.
Proof. destruct l as [|[]]; reflexivity. Qed.

Lemma shr_fexp_nonneg prec emax m e l :
  (0 <= m)%Z -> (0 <= shr_m (shr_fexp prec emax m e l).1)%Z.
Proof.
  intros Hm. unfold shr_fexp. apply shr_nonneg. rewrite shr_record_of_loc_m. exact Hm.
Qed.

Lemma round_nearest_even_nonneg m l : (0 <= m)%Z -> (0 <= round_nearest_even m l)%Z.
Proof.
  intros Hm. unfold round_nearest_even. destruct l as [|[]]; try lia.
  destruct (Z.even m); lia.
Qed.

Lemma binary_round_aux_nonneg prec emax mx ex lx :
  (0 <= mx)%Z -> SFnonneg (binary_round_aux prec emax false mx ex lx) = true.
Proof.
  intros Hm. unfold binary_round_aux.
  pose proof (shr_fexp_nonneg prec emax mx ex lx Hm) as H1.
  destruct (shr_fexp prec emax mx ex lx) as [mrs' e']. simpl in H1.
  pose proof (shr_fexp_nonneg prec emax
                (round_nearest_even (shr_m mrs') (loc_of_shr_record mrs')) e' loc_Exact
                (round_nearest_even_nonneg _ _ H1)) as H2.
  destruct (shr_fexp prec emax _ e' loc_Exact) as [mrs'' e'']. simpl in H2.
  destruct (shr_m mrs'') as [|p|p]; try reflexivity; [|lia].
  destruct (Z.leb _ _); reflexivity.
Qed.

Lemma binary_round_nonneg prec emax m e :
  SFnonneg (binary_round prec emax false m e) = true.
Proof.
  unfold binary_round. destruct (shl_align _ _ _) as [mz ez].
  apply binary_round_aux_nonneg. lia.
Qed.

Lemma binary_normalize_nonneg prec emax m e :
  (0 <= m)%Z -> SFnonneg (binary_normalize prec emax m e false) = true.
Proof.
  intros Hm. unfold binary_normalize. destruct m as [|p|p]; [reflexivity| |lia].
  apply binary_round_nonneg.
Qed.

(** The sum of two doubles that are not negative is not negative. *)
Lemma SFadd_nonneg prec emax x y :
  SFnonneg x = true -> SFnonneg y = true -> SFnonneg (SFadd prec emax x y) = true.
Proof.
  destruct x as [sx|sx| |sx mx ex], y as [sy|sy| |sy my ey]; simpl;
    try discriminate; try (destruct sx; simpl; try discriminate);
    try (destruct sy; simpl; try discriminate); auto.
  intros _ _. apply binary_round_nonneg.
Qed.

Lemma float_add_nonneg f g :
  PrimFloat.leb 0%float f = true -> PrimFloat.leb 0%float g = true ->
  PrimFloat.leb 0%float (PrimFloat.add f g) = true.
Proof. rewrite !leb_zero_nonneg, add_spec. apply SFadd_nonneg. Qed.

Lemma SFldexp_nonneg prec emax x e :
  SFnonneg x = true -> SFnonneg (SFldexp prec emax x e) = true.
Proof.
  destruct x as [s|s| |s m ex]; simpl; auto.
  destruct s; [discriminate|]. intros _. apply binary_round_nonneg.
Qed.

Lemma of_uint63_nonneg n : SFnonneg (Prim2SF (of_uint63 n)) = true.
Proof.
  rewrite of_uint63_spec. apply binary_normalize_nonneg.
  pose proof (Uint63.to_Z_bounded n). lia.
Qed.

Lemma SF2Prim_nonneg x :
  SFnonneg x = true -> PrimFloat.leb 0%float (SF2Prim x) = true.
Proof.
  destruct x as [s|s| |s m e]; simpl.
  - intros _. destruct s; reflexivity.
  - destruct s; [discriminate | reflexivity].
  - discriminate.
  - destruct s; [discriminate|]. intros _.
    rewrite leb_zero_nonneg. unfold Z.ldexp. rewrite ldshiftexp_spec.
    apply SFldexp_nonneg, of_uint63_nonneg.
Qed.

(** The double nearest to an [int] that is not negative is not
    negative. *)
Lemma nearest_float_nonneg z :
  (0 <= z)%Z -> PrimFloat.leb 0%float (nearest_float z) = true.
Proof.
  intros Hz. apply SF2Prim_nonneg, binary_normalize_nonneg, Hz.
Qed.

Lemma float_of_int_nonneg z f :
  (0 <= z)%Z -> float_of_int z = Ok f -> PrimFloat.leb 0%float f = true.
Proof.
  intros Hz. unfold float_of_int.
  destruct (PrimFloat.is_infinity (nearest_float z)); [discriminate|].
  intros [= <-]. apply nearest_float_nonneg, Hz.
Qed.

(** The sum of two numbers that are not negative is not negative. *)
Lemma add_nonneg a b total :
  nonneg a = true -> nonneg b = true -> add a b = Ok total -> nonneg total = true.
Proof.
  destruct a as [x|f], b as [y|g]; simpl.
  - intros Hx%Z.leb_le Hy%Z.leb_le [= <-]. simpl. apply Z.leb_le. lia.
  - intros Hx%Z.leb_le Hg.
    destruct (float_of_int x) as [f|e] eqn:Hf; simpl; [|discriminate].
    intros [= <-]. simpl. apply float_add_nonneg; [|exact Hg].
    eapply float_of_int_nonneg; eassumption.
  - intros Hf Hy%Z.leb_le.
    destruct (float_of_int y) as [g|e] eqn:Hg; simpl; [|discriminate].
    intros [= <-]. simpl. apply float_add_nonneg; [exact Hf|].
    eapply float_of_int_nonneg; eassumption.
  - intros Hf Hg [= <-]. simpl. apply float_add_nonneg; assumption.
Qed.

Lemma neg_nonpos a : nonneg a = true -> nonpos (neg a) = true.
Proof.
  destruct a as [x|f]; simpl.
  - intros Hx%Z.leb_le. apply Z.leb_le. lia.
  - apply opp_nonpos.
Qed.

Section Signs.

Variable float_of_str : string -> option float.
Variable fs : string -> option (list string).
Variable NativeMatrix : Type.
Variable substitution_matrices : option (file_arg -> NativeMatrix + string).

(** X11: For penalties that are not negative, neither score the engine is
    given is positive: with ints, with doubles (rounded sums included)
    and with one of each, gaps are never rewarded. *)
Theorem gap_scores_not_positive scope go ge mf matrix a :
  nonneg go = true -> nonneg ge = true ->
  (Aligner_init float_of_str fs NativeMatrix substitution_matrices
     scope go ge mf matrix).2 = Ok a ->
  nonpos (open_gap_score _ (_aligner _ a)) = true
  /\ nonpos (extend_gap_score _ (_aligner _ a)) = true.
Proof.
  intros Hgo Hge Hinit.
  apply Aligner_init_Ok in Hinit as [m Hm].
  apply configure_Ok in Hm as (total & Hadd & ->).
  cbn [open_gap_score extend_gap_score _aligner]. split.
  - apply neg_nonpos. exact (add_nonneg go ge total Hgo Hge Hadd).
  - apply neg_nonpos, Hge.
Qed.

End Signs.

End ScoreSigns.

(** * The further properties on sample inputs *)

Module MoreWitnesses.
Import Py PyText PairAlign PairAlignCli Run RunTools MoreSamples.

Lemma loader_no_rows_witness :
  more_fs "header-only.txt" = Some ["# symbols"; "A C G T"]
  /\ data_rows ["# symbols"; "A C G T"] = []
  /\ substitution_matrix_loader sample_float more_fs (PathArg "header-only.txt") = Ok ∅.
Proof.
  split; [reflexivity|]. split; [reflexivity|].
  exact (LoaderExtra.loader_no_rows sample_float more_fs "header-only.txt"
           ["# symbols"; "A C G T"] eq_refl eq_refl).
Defined.

Lemma override_loaded :
  substitution_matrix_loader sample_float more_fs (PathArg "override.txt")
  = Ok override_matrix.
Proof. vm_compute. reflexivity. Defined.

Lemma loader_entry_bound_witness :
  more_fs "override.txt" = Some ["A C A"; "A 1 2 3"; "C 4 5 6"; "A 7 8 9"]
  /\ header ["A C A"; "A 1 2 3"; "C 4 5 6"; "A 7 8 9"] = Some ["A"; "C"; "A"]
  /\ size override_matrix <= 3 * 3.
Proof.
  split; [reflexivity|]. split; [reflexivity|].
  exact (LoaderExtra.loader_entry_bound sample_float more_fs "override.txt"
           ["A C A"; "A 1 2 3"; "C 4 5 6"; "A 7 8 9"] ["A"; "C"; "A"] override_matrix
           eq_refl eq_refl override_loaded).
Defined.

Lemma loader_last_assignment_witness :
  data_rows ["A C A"; "A 1 2 3"; "C 4 5 6"; "A 7 8 9"]
  = ([(2, "A 1 2 3"); (3, "C 4 5 6")] ++ (4, "A 7 8 9") :: [])%list
  /\ row_symbol "A 7 8 9" = Some "A"
  /\ score_strs "A 7 8 9" !! 2 = Some "9"
  /\ exists v, sample_float "9" = Some v /\ override_matrix !! ("A", "A") = Some v.
Proof.
  split; [reflexivity|]. split; [reflexivity|]. split; [reflexivity|].
  exact (LoaderExtra.loader_last_assignment sample_float more_fs "override.txt"
           ["A C A"; "A 1 2 3"; "C 4 5 6"; "A 7 8 9"] ["A"; "C"; "A"] override_matrix
           [(2, "A 1 2 3"); (3, "C 4 5 6")] 4 "A 7 8 9" [] "A" ["A"; "C"] "A" [] "9"
           eq_refl eq_refl override_loaded eq_refl eq_refl
           (Forall_nil_2 _) eq_refl (not_elem_of_nil _) eq_refl).
Defined.

Lemma loader_bad_number_first_witness :
  more_fs "bad-and-long.txt" = Some ["A C"; "A 1 2"; "C 3 x 5"]
  /\ data_rows ["A C"; "A 1 2"; "C 3 x 5"] = ([(2, "A 1 2")] ++ [(3, "C 3 x 5")])%list
  /\ tokens_ok sample_float "A 1 2" = true
  /\ count_ok ["A"; "C"] "A 1 2" = true
  /\ score_strs "C 3 x 5" = (["3"] ++ "x" :: ["5"])%list
  /\ sample_float "x" = None
  /\ substitution_matrix_loader sample_float more_fs (PathArg "bad-and-long.txt")
     = Raise (ValueError (BadFloat "x")).
Proof.
  split; [reflexivity|]. split; [reflexivity|]. split; [reflexivity|].
  split; [reflexivity|]. split; [reflexivity|]. split; [reflexivity|].
  refine (LoaderExtra.loader_bad_number_first sample_float more_fs "bad-and-long.txt"
            ["A C"; "A 1 2"; "C 3 x 5"] ["A"; "C"] [(2, "A 1 2")] 3 "C 3 x 5" []
            "C" ["3"] "x" ["5"]
            eq_refl eq_refl eq_refl _ eq_refl eq_refl _ eq_refl).
  - constructor; [split; reflexivity | constructor].
  - constructor; [eexists; reflexivity | constructor].
Defined.

Lemma loader_error_line_witness :
  more_fs "commented.txt" = Some ["# c"; "A C"; "  # d"; "A 1"]
  /\ substitution_matrix_loader sample_float more_fs (PathArg "commented.txt")
     = Raise (ValueError (CountMismatch 4 1 2))
  /\ exists raw xb,
       1 <= 4 /\ ["# c"; "A C"; "  # d"; "A 1"] !! (4 - 1) = Some raw
       /\ is_comment raw = false
       /\ header ["# c"; "A C"; "  # d"; "A 1"] = Some xb
       /\ 1 = length (score_strs raw) /\ 2 = length xb /\ 1 <> 2.
Proof.
  assert (substitution_matrix_loader sample_float more_fs (PathArg "commented.txt")
          = Raise (ValueError (CountMismatch 4 1 2))) as Hload
    by (vm_compute; reflexivity).
  split; [reflexivity|]. split; [exact Hload|].
  exact (LoaderExtra.loader_error_line sample_float more_fs "commented.txt"
           ["# c"; "A C"; "  # d"; "A 1"] 4 1 2 eq_refl Hload).
Defined.


Lemma loader_blank_row_witness :
  more_fs "blank-row.txt" = Some ["A C"; "A 1 2"; "   "; "C 3 4"]
  /\ blank "   " = true
  /\ substitution_matrix_loader sample_float more_fs (PathArg "blank-row.txt")
     = Raise (ValueError NotEnoughValues).
Proof.
  split; [reflexivity|]. split; [reflexivity|].
  refine (LoaderSymbols.loader_blank_row sample_float more_fs "blank-row.txt"
            ["A C"; "A 1 2"; "   "; "C 3 4"] ["A"; "C"]
            [(2, "A 1 2")] 3 "   " [(4, "C 3 4")]
            eq_refl eq_refl eq_refl _ eq_refl).
  constructor; [split; reflexivity | constructor].
Defined.

Lemma dna_loaded :
  substitution_matrix_loader sample_float sample_fs (PathArg "sub-matrix.txt")
  = Ok dna_matrix.
Proof. vm_compute. reflexivity. Defined.

Lemma loader_symbols_witness :
  dna_matrix !! ("C", "A") = Some (-1)%float
  /\ ("C" <> EmptyString /\ spaceless "C" = true)
  /\ ("A" <> EmptyString /\ spaceless "A" = true)
  /\ startswith "A" "#" = false.
Proof.
  assert (dna_matrix !! ("C", "A") = Some (-1)%float) as Hm by (vm_compute; reflexivity).
  split; [exact Hm|].
  exact (LoaderSymbols.loader_symbols sample_float sample_fs "sub-matrix.txt"
           dna_matrix_lines dna_matrix "C" "A" (-1)%float eq_refl dna_loaded Hm).
Defined.

Lemma alignment_str_lines_witness :
  printed_lines acgt_alignment = splitlines acgt_text
  /\ Alignment_init acgt_alignment = Ok acgt_wrapper
  /\ splitlines (Alignment_str acgt_wrapper) = splitlines acgt_text.
Proof.
  split; [reflexivity|]. split; [reflexivity|].
  refine (AlignmentFacts.alignment_str_lines acgt_text acgt_alignment acgt_wrapper
            eq_refl eq_refl _).
  discriminate.
Defined.

Lemma consecutive_diffs_disjoint_witness :
  get_objects_diff module_GlobalsAfterMeta module_GlobalsAfterActive FunctionType
    !! "trimmer" = Some (Function "trimmer")
  /\ get_objects_diff module_GlobalsAfterActive module_GlobalsAfterInactive FunctionType
       !! "trimmer" = None.
Proof.
  assert (get_objects_diff module_GlobalsAfterMeta module_GlobalsAfterActive FunctionType
            !! "trimmer" = Some (Function "trimmer")) as Hin
    by (vm_compute; reflexivity).
  split; [exact Hin|].
  exact (RunExtra.consecutive_diffs_disjoint module_GlobalsAfterMeta
           module_GlobalsAfterActive module_GlobalsAfterInactive FunctionType "trimmer"
           (ex_intro _ (Function "trimmer") Hin)).
Defined.

Lemma main_runs_requested_witness :
  main true (fun _ _ => None)
    module_GlobalsInitial module_GlobalsAfterMeta
    module_GlobalsAfterActive module_GlobalsAfterInactive
    ["trimmer"; "get_context"] []
  = (([] ++ invocations
              (all_tests module_GlobalsInitial module_GlobalsAfterMeta
                 module_GlobalsAfterActive module_GlobalsAfterInactive)
              ["trimmer"; "get_context"])%list,
     Ok None).
Proof.
  refine (RunMain.main_runs_requested true (fun _ _ => None)
            module_GlobalsInitial module_GlobalsAfterMeta
            module_GlobalsAfterActive module_GlobalsAfterInactive
            ["trimmer"; "get_context"] [] _ _).
  - discriminate.
  - constructor; [|constructor; [|constructor]].
    + exists (Function "trimmer").
      split; [vm_compute; reflexivity|]. split; [discriminate | reflexivity].
    + exists (Function "get_context").
      split; [vm_compute; reflexivity|]. split; [discriminate | reflexivity].
Defined.

Lemma main_stops_at_first_failure_witness :
  main true trimmer_raises
    module_GlobalsInitial module_GlobalsAfterMeta
    module_GlobalsAfterActive module_GlobalsAfterInactive
    (["get_context"] ++ "trimmer" :: ["getreads_smoke"])%list []
  = (([] ++ invocations
              (all_tests module_GlobalsInitial module_GlobalsAfterMeta
                 module_GlobalsAfterActive module_GlobalsAfterInactive)
              ["get_context"]
         ++ [Invoke (Function "trimmer") "trimmer"])%list,
     Raise (Exception "boom")).
Proof.
  refine (RunMain.main_stops_at_first_failure true trimmer_raises
            module_GlobalsInitial module_GlobalsAfterMeta
            module_GlobalsAfterActive module_GlobalsAfterInactive
            ["get_context"] "trimmer" (Function "trimmer") ["getreads_smoke"]
            (Exception "boom") [] _ _ _ eq_refl _).
  - constructor; [|constructor]. exists (Function "get_context").
    split; [vm_compute; reflexivity|]. split; [discriminate | reflexivity].
  - vm_compute. reflexivity.
  - discriminate.
  - constructor; [|constructor]. exists (Function "getreads_smoke").
    vm_compute. reflexivity.
Defined.

Lemma all_runs_every_test_witness :
  exists events,
    call (fun _ _ => None)
      module_GlobalsAfterMeta module_GlobalsAfterActive module_GlobalsAfterInactive
      (Lambda SimpleTests) "all" []
    = (([] ++ events)%list, Ok tt)
    /\ events ≡ₚ (group_invocations
                    (active_tests module_GlobalsAfterMeta module_GlobalsAfterActive)
                  ++ group_invocations
                       (inactive_tests module_GlobalsAfterActive
                          module_GlobalsAfterInactive))%list.
Proof.
  refine (RunMain.all_runs_every_test (fun _ _ => None)
            module_GlobalsAfterMeta module_GlobalsAfterActive
            module_GlobalsAfterInactive "all" [] _).
  reflexivity.
Defined.

Lemma trimmed_diff_drops_header_witness :
  small_unified_diff ["a"] ["b"] ""
  = ("--- a" ++ RunText.tab ++ "c" ++ "")
    :: ("+++ b" ++ RunText.tab ++ "d" ++ "") :: ["@@ -1 +1 @@"; "-a"; "+b"]
  /\ trimmed_diff small_unified_diff ["a"] ["b"] "" = ["@@ -1 +1 @@"; "-a"; "+b"].
Proof.
  split; [reflexivity|].
  exact (RunToolsFacts.trimmed_diff_drops_header small_unified_diff ["a"] ["b"] ""
           ["@@ -1 +1 @@"; "-a"; "+b"] eq_refl).
Defined.

Lemma trimmed_diff_without_header_witness :
  small_unified_diff ["a"] ["a"] "" = []
  /\ trimmed_diff small_unified_diff ["a"] ["a"] "" = [].
Proof.
  split; [reflexivity|].
  exact (RunToolsFacts.trimmed_diff_without_header small_unified_diff ["a"] ["a"] ""
           (not_elem_of_nil _)).
Defined.

Lemma run_command_logs_witness :
  small_subprocess_run ["false"] Inherited PIPE
  = Ok {| returncode := 1; stdout := ""; stderr := "failed" |}
  /\ run_command small_subprocess_run Ok (fun _ => "") ["false"] "stderr"
     = (["failed"], Ok 1%Z).
Proof.
  split; [reflexivity|].
  exact (RunToolsFacts.run_command_logs small_subprocess_run Ok (fun _ => "")
           ["false"] "stderr" {| returncode := 1; stdout := ""; stderr := "failed" |}
           "failed" eq_refl eq_refl).
Defined.

Lemma main_exceptions_witness :
  PairAlignCli.main sample_float sample_fs unit None no_alignments "sub-matrix.txt"
    missing_matrix_args
  = Raise (OSError "missing.txt")
  /\ from_command_line (OSError "missing.txt").
Proof.
  assert (PairAlignCli.main sample_float sample_fs unit None no_alignments
            "sub-matrix.txt" missing_matrix_args
          = Raise (OSError "missing.txt")) as Hmain by (vm_compute; reflexivity).
  split; [exact Hmain|].
  exact (CliFacts.main_exceptions sample_float sample_fs unit None no_alignments
           "sub-matrix.txt" missing_matrix_args (OSError "missing.txt") Hmain).
Defined.

Lemma gap_scores_not_positive_witness :
  nonneg (PyInt 0) = true /\ nonneg (PyFloat 2.5) = true
  /\ nonpos (open_gap_score _ (_aligner _ default_aligner)) = true
  /\ nonpos (extend_gap_score _ (_aligner _ default_aligner)) = true.
Proof.
  assert (default_init.2 = Ok default_aligner) as Hinit by (vm_compute; reflexivity).
  split; [reflexivity|]. split; [reflexivity|].
  exact (ScoreSigns.gap_scores_not_positive sample_float sample_fs unit None
           "local" (PyInt 0) (PyFloat 2.5) (PathArg "sub-matrix.txt") None
           default_aligner eq_refl eq_refl Hinit).
Defined.

End MoreWitnesses.
